(** * Margin calculator: the position model of [src/main.py]

    [main.py] defines a dataclass [MarginPosition] with five [float]
    fields and eight computed properties, and a [main] function whose
    last part builds a leverage sensitivity table from a position.

    The properties and the table loop are embedded once, over an
    abstract arithmetic [PyFloat], which has two instances:

    - [Binary64.float_PyFloat] is the arithmetic of the program: IEEE
      754 binary64, which is Python's [float], with CPython's
      [ZeroDivisionError] on a zero divisor.  What is said of the code
      is said of this instance, or of every instance.
    - [Exact.Q_PyFloat] is exact rational arithmetic.  It is not what
      the interpreter runs: it is the reading without rounding in which
      the specification writes its formulas ("all real numbers"), and
      it is used to state what a formula gives in that reading, beside
      what the code returns.

    Statements that only depend on the shape of the code are proved for
    every arithmetic.  Statements on values are proved in binary64, from
    the specification of the format in [SpecFloat]: which divisors can
    be zero, which operations round nothing, and what the worked
    example evaluates to.

    The values [main] computes around its widgets (the bound beside the
    leverage widget, its initial value, the rates divided by 100, the
    metrics) are embedded as well; the widgets themselves, the string
    formatting and the display belong to Streamlit and pandas and are
    not modelled. *)

From Stdlib Require Import ZArith QArith Qabs Qpower List Bool Lia Lqa.
From Stdlib Require Import Floats Uint63 Sorted.
Import ListNotations.

(** ** Python results: a value or a raised exception *)

(** The only exception the arithmetic of [main.py] can raise. *)
Inductive exn : Type :=
| ZeroDivisionError.

Inductive result (A : Type) : Type :=
| Ok (a : A)
| Raise (e : exn).

Arguments Ok {A} a.
Arguments Raise {A} e.

Definition bind {A B : Type} (r : result A) (k : A -> result B) : result B :=
  match r with
  | Ok a => k a
  | Raise e => Raise e
  end.

Notation "x <- r ;; k" := (bind r (fun x => k))
  (at level 61, r at next level, right associativity).

Definition succeeds {A : Type} (r : result A) : Prop :=
  exists a, r = Ok a.

(** A Python [for] loop whose body updates a state and may raise. *)
Fixpoint for_each {A S : Type} (body : S -> A -> result S)
  (xs : list A) (s : S) : result S :=
  match xs with
  | [] => Ok s
  | x :: rest => s' <- body s x ;; for_each body rest s'
  end.

(** ** The arithmetic of Python's [float] *)

(** [f_quot] is the quotient the hardware computes; Python's [/] first
    tests the divisor ([f_is_zero]) and raises when it is zero.
    [f_of_Z] converts an integer literal of the source to a float. *)
Class PyFloat (F : Type) : Type := {
  f_add : F -> F -> F;
  f_sub : F -> F -> F;
  f_mul : F -> F -> F;
  f_quot : F -> F -> F;
  f_is_zero : F -> bool;
  f_le : F -> F -> bool;
  f_of_Z : Z -> F;
  f_twelve_nonzero : f_is_zero (f_of_Z 12) = false;
  f_year_nonzero : f_is_zero (f_of_Z 365) = false
}.

Declare Scope py_scope.
Delimit Scope py_scope with py.
Infix "+" := f_add : py_scope.
Infix "-" := f_sub : py_scope.
Infix "*" := f_mul : py_scope.
Infix "<=?" := f_le : py_scope.

(** Python's true division [x / y]. *)
Definition truediv {F : Type} `{PyFloat F} (x y : F) : result F :=
  if f_is_zero y then Raise ZeroDivisionError else Ok (f_quot x y).

(** ** The dataclass and its properties *)

Section Model.

Context {F : Type} `{PyFloat F}.

Local Open Scope py_scope.

Record MarginPosition : Type := {
  amount : F;
  ltv : F;
  leverage : F;
  collateral_rate : F;
  borrow_rate : F
}.

(** The generated [__init__] of the dataclass: it stores its five
    arguments; the class defines no [__post_init__]. *)
Definition Construct (amount ltv leverage collateral_rate borrow_rate : F)
  : result MarginPosition :=
  Ok {| amount := amount;
        ltv := ltv;
        leverage := leverage;
        collateral_rate := collateral_rate;
        borrow_rate := borrow_rate |}.

Definition max_leverage (self : MarginPosition) : result F :=
  truediv (f_of_Z 1) (f_of_Z 1 - ltv self).

Definition collateral (self : MarginPosition) : F :=
  amount self.

Definition borrow (self : MarginPosition) : F :=
  amount self * (leverage self - f_of_Z 1).

Definition deposit (self : MarginPosition) : F :=
  collateral self + borrow self.

Definition net_apy (self : MarginPosition) : result F :=
  q <- truediv (collateral_rate self * collateral self * leverage self
                - borrow_rate self * borrow self)
               (collateral self) ;;
  Ok (q * f_of_Z 100).

Definition annual_earnings (self : MarginPosition) : F :=
  collateral_rate self * collateral self * leverage self
  - borrow_rate self * borrow self.

Definition monthly_earnings (self : MarginPosition) : result F :=
  truediv (annual_earnings self) (f_of_Z 12).

Definition daily_earnings (self : MarginPosition) : result F :=
  truediv (annual_earnings self) (f_of_Z 365).

(** ** The sensitivity table of [main] *)

(** One entry of [sensitivity_data], before its values are formatted
    to strings (the [f"{...:.2f}"] formatting is presentation and is
    total on floats). *)
Record SensitivityRow : Type := {
  row_leverage : F;
  row_position_size : F;
  row_net_apy : F;
  row_annual : F;
  row_monthly : F;
  row_daily : F
}.

(** [test_pos]: the base position with another leverage. *)
Definition test_pos (position : MarginPosition) (lev : F) : MarginPosition :=
  {| amount := amount position;
     ltv := ltv position;
     leverage := lev;
     collateral_rate := collateral_rate position;
     borrow_rate := borrow_rate position |}.

(** The dictionary appended for one leverage, its values evaluated in
    the order the source writes them. *)
Definition projection (lev : F) (p : MarginPosition) : result SensitivityRow :=
  let size := deposit p in
  apy <- net_apy p ;;
  let annual := annual_earnings p in
  monthly <- monthly_earnings p ;;
  daily <- daily_earnings p ;;
  Ok {| row_leverage := lev;
        row_position_size := size;
        row_net_apy := apy;
        row_annual := annual;
        row_monthly := monthly;
        row_daily := daily |}.

(** The values of that dictionary when no division raises: what
    [projection] returns for a position whose amount is not zero
    ([projection_Ok] below). *)
Definition row_of (lev : F) (p : MarginPosition) : SensitivityRow :=
  {| row_leverage := lev;
     row_position_size := deposit p;
     row_net_apy := f_quot (annual_earnings p) (collateral p) * f_of_Z 100;
     row_annual := annual_earnings p;
     row_monthly := f_quot (annual_earnings p) (f_of_Z 12);
     row_daily := f_quot (annual_earnings p) (f_of_Z 365) |}.

(** The body of [for lev in leverages]: the bound is read from the
    position at every iteration. *)
Definition sensitivity_step (position : MarginPosition)
  (sensitivity_data : list SensitivityRow) (lev : F)
  : result (list SensitivityRow) :=
  bound <- max_leverage position ;;
  if lev <=? bound then
    row <- projection lev (test_pos position lev) ;;
    Ok (sensitivity_data ++ [row])
  else
    Ok sensitivity_data.

(** The loop, started from the empty list. *)
Definition Generate (position : MarginPosition) (candidates : list F)
  : result (list SensitivityRow) :=
  for_each (sensitivity_step position) candidates [].

(** [leverages = [1.0, 2.0, 3.0, 4.0, 5.0, position.max_leverage]]. *)
Definition leverages (position : MarginPosition) : result (list F) :=
  bound <- max_leverage position ;;
  Ok [f_of_Z 1; f_of_Z 2; f_of_Z 3; f_of_Z 4; f_of_Z 5; bound].

Definition sensitivity_data (position : MarginPosition)
  : result (list SensitivityRow) :=
  menu <- leverages position ;;
  Generate position menu.

End Model.

Arguments MarginPosition F : clear implicits.
Arguments SensitivityRow F : clear implicits.

(** ** Exact arithmetic

    The formulas read without rounding.  This is not the arithmetic of
    the program, which is [Binary64.float_PyFloat] below. *)

Module Exact.

(** Rational numbers; the zero test and the comparison are the
    decision procedures of [Q]. *)
#[global] Instance Q_PyFloat : PyFloat Q := {|
  f_add := Qplus;
  f_sub := Qminus;
  f_mul := Qmult;
  f_quot := Qdiv;
  f_is_zero := fun q => Qeq_bool q 0;
  f_le := Qle_bool;
  f_of_Z := inject_Z;
  f_twelve_nonzero := eq_refl;
  f_year_nonzero := eq_refl
|}.


(** The invariants of section 3 of the specification, on the five
    arguments of a construction. *)
Definition valid_inputs (amount ltv leverage collateral_rate borrow_rate : Q)
  : Prop :=
  0 < amount /\
  (0 < ltv /\ ltv < 1) /\
  (1 <= leverage /\ leverage <= 1 / (1 - ltv)) /\
  0 <= collateral_rate /\
  0 <= borrow_rate.

(** The position of the specification's worked example. *)
Definition example_position : MarginPosition Q :=
  {| amount := 100;
     ltv := 8 # 10;
     leverage := 5;
     collateral_rate := 1376 # 10000;
     borrow_rate := 1097 # 10000 |}.

Definition row_leverages (rows : list (SensitivityRow Q)) : list Q :=
  map row_leverage rows.

End Exact.

(** ** Binary64 arithmetic *)

Module Binary64.

(** An integer literal as a float; the literals of [main.py] are
    small and convert exactly. *)
Definition float_of_Z (z : Z) : float :=
  match z with
  | Z0 => PrimFloat.zero
  | Zpos _ => PrimFloat.of_uint63 (Uint63.of_Z z)
  | Zneg p => PrimFloat.opp (PrimFloat.of_uint63 (Uint63.of_Z (Zpos p)))
  end.

(** CPython's [float_div] raises when [b == 0.0], which holds of both
    signed zeros and of no NaN. *)
#[global] Instance float_PyFloat : PyFloat float := {|
  f_add := PrimFloat.add;
  f_sub := PrimFloat.sub;
  f_mul := PrimFloat.mul;
  f_quot := PrimFloat.div;
  f_is_zero := fun x => PrimFloat.eqb x PrimFloat.zero;
  f_le := PrimFloat.leb;
  f_of_Z := float_of_Z;
  f_twelve_nonzero := eq_refl;
  f_year_nonzero := eq_refl
|}.

(** The rational a finite float denotes. *)
Definition to_Q (x : float) : option Q :=
  match Prim2SF x with
  | S754_zero _ => Some 0%Q
  | S754_finite s m e => Some (inject_Z (cond_Zopp s (Zpos m)) * (2 ^ e))%Q
  | S754_infinity _ | S754_nan => None
  end.

(** [near x q eps]: the float [x] is finite and within [eps] of [q]. *)
Definition near (x : float) (q eps : Q) : bool :=
  match to_Q x with
  | Some v => Qle_bool (Qabs (v - q)) eps
  | None => false
  end.


#[local] Set Warnings "-inexact-float".

(** The position of the specification's worked example, its decimal
    literals read as Python reads them (to the nearest binary64). *)
Definition example_position : MarginPosition float :=
  {| amount := 100%float;
     ltv := 0.8%float;
     leverage := 5%float;
     collateral_rate := 0.1376%float;
     borrow_rate := 0.1097%float |}.

#[local] Set Warnings "+inexact-float".

Definition row_leverages (rows : list (SensitivityRow float)) : list float :=
  map row_leverage rows.

End Binary64.

(** ** The rest of [main]: the values it computes around the widgets *)

(** Python's [<] on floats, which [min] uses. *)
Class PyFloatLt (F : Type) : Type := {
  f_lt : F -> F -> bool
}.

#[global] Instance float_PyFloatLt : PyFloatLt float := {|
  f_lt := PrimFloat.ltb
|}.

Section Main.

Context {F : Type} `{PyFloat F} `{PyFloatLt F}.

Local Open Scope py_scope.

(** Python's [min(a, b)]: the second argument replaces the first only
    when it is smaller. *)
Definition py_min (a b : F) : F :=
  if f_lt b a then b else a.

(** [max_lev = 1 / (1 - ltv)], computed from the value of the
    loan-to-value widget. *)
Definition max_lev (ltv : F) : result F :=
  truediv (f_of_Z 1) (f_of_Z 1 - ltv).

(** The initial value of the leverage widget, [min(5.0, max_lev)];
    the widget ranges from [1.0] to [max_lev]. *)
Definition default_leverage (ltv : F) : result F :=
  bound <- max_lev ltv ;;
  Ok (py_min (f_of_Z 5) bound).

(** The nine values shown as metrics, before they are formatted. *)
Record Metrics : Type := {
  total_position : F;
  initial_amount : F;
  borrowed : F;
  metric_net_apy : F;
  collateral_rate_percent : F;
  borrow_rate_percent : F;
  earnings_year : F;
  earnings_month : F;
  earnings_day : F
}.

Definition metrics (position : MarginPosition F) : result Metrics :=
  let total := deposit position in
  let initial := collateral position in
  let debt := borrow position in
  apy <- net_apy position ;;
  let cr := collateral_rate position * f_of_Z 100 in
  let br := borrow_rate position * f_of_Z 100 in
  let year := annual_earnings position in
  month <- monthly_earnings position ;;
  day <- daily_earnings position ;;
  Ok {| total_position := total;
        initial_amount := initial;
        borrowed := debt;
        metric_net_apy := apy;
        collateral_rate_percent := cr;
        borrow_rate_percent := br;
        earnings_year := year;
        earnings_month := month;
        earnings_day := day |}.

(** The metrics when no division raises: what [metrics] returns for a
    position whose amount is not zero ([metrics_Ok] below). *)
Definition metrics_of (position : MarginPosition F) : Metrics :=
  {| total_position := deposit position;
     initial_amount := collateral position;
     borrowed := borrow position;
     metric_net_apy :=
       f_quot (annual_earnings position) (collateral position) * f_of_Z 100;
     collateral_rate_percent := collateral_rate position * f_of_Z 100;
     borrow_rate_percent := borrow_rate position * f_of_Z 100;
     earnings_year := annual_earnings position;
     earnings_month := f_quot (annual_earnings position) (f_of_Z 12);
     earnings_day := f_quot (annual_earnings position) (f_of_Z 365) |}.

(** The position [main] builds from the five widget values: the two
    rates are entered as percentages and divided by 100. *)
Definition position_of_inputs
  (amount ltv leverage collateral_percent borrow_percent : F)
  : result (MarginPosition F) :=
  collateral_rate <- truediv collateral_percent (f_of_Z 100) ;;
  borrow_rate <- truediv borrow_percent (f_of_Z 100) ;;
  Construct amount ltv leverage collateral_rate borrow_rate.

(** What [main] computes from the five widget values, in its order:
    the bound shown beside the leverage widget, the position, the
    metrics and the sensitivity table. *)
Definition main (amount ltv leverage collateral_percent borrow_percent : F)
  : result (Metrics * list (SensitivityRow F)) :=
  _ <- max_lev ltv ;;
  position <- position_of_inputs amount ltv leverage
                collateral_percent borrow_percent ;;
  shown <- metrics position ;;
  table <- sensitivity_data position ;;
  Ok (shown, table).

End Main.

Arguments Metrics F : clear implicits.

(** ** Binary64: the bounds of the widgets *)

#[local] Set Warnings "-inexact-float".

(** [max_value=0.95] of the loan-to-value widget and [min_value=1.0]
    of the amount widget, as Python reads the literals. *)
Definition ltv_max_value : float := 0.95%float.

(** [min_value=0.1] of the loan-to-value widget. *)
Definition ltv_min_value : float := 0.1%float.

Definition amount_min_value : float := 1%float.

#[local] Set Warnings "+inexact-float".

(** ** Binary64 against the formulas without rounding

    A float denotes a rational; a position of floats denotes a position
    of rationals, on which a formula can be evaluated without rounding
    and compared with what the code returns.  The comparisons below run
    over a grid of inputs: nine amounts, the rates 0%, 1%, ..., 20% (a
    percentage divided by 100, as [main] does) and the leverages 1 to 5
    of the menu, at a loan-to-value of 0.8. *)







#[local] Set Warnings "-inexact-float".


#[local] Set Warnings "+inexact-float".






(** ** Binary64: the shapes of a specified float *)

Definition SF_one : spec_float :=
  S754_finite false 4503599627370496 (-52).

Definition is_SF_zero (x : spec_float) : bool :=
  match x with
  | S754_zero _ => true
  | _ => false
  end.

Definition is_SF_nan (x : spec_float) : bool :=
  match x with
  | S754_nan => true
  | _ => false
  end.

(** * Properties *)

(** ** Results and loops *)

Lemma bind_Ok {A B : Type} (a : A) (k : A -> result B) :
  (x <- Ok a ;; k x) = k a.
Proof. reflexivity. Qed.

Lemma bind_succeeds {A B : Type} (r : result A) (k : A -> result B) (b : B) :
  (x <- r ;; k x) = Ok b -> exists a, r = Ok a /\ k a = Ok b.
Proof.
  destruct r as [a | e]; simpl; intros Hk.
  - exists a. split; [reflexivity | exact Hk].
  - discriminate Hk.
Qed.

Lemma truediv_nonzero {F : Type} `{PyFloat F} (x y : F) :
  f_is_zero y = false -> truediv x y = Ok (f_quot x y).
Proof. intros Hy. unfold truediv. rewrite Hy. reflexivity. Qed.

Lemma truediv_zero {F : Type} `{PyFloat F} (x y : F) :
  f_is_zero y = true -> truediv x y = Raise ZeroDivisionError.
Proof. intros Hy. unfold truediv. rewrite Hy. reflexivity. Qed.

(** ** Statements that hold in every arithmetic *)

Section Shape.

Context {F : Type} `{PyFloat F}.

Local Open Scope py_scope.

Lemma monthly_earnings_Ok (p : MarginPosition F) :
  monthly_earnings p = Ok (f_quot (annual_earnings p) (f_of_Z 12)).
Proof. apply truediv_nonzero, f_twelve_nonzero. Qed.

Lemma daily_earnings_Ok (p : MarginPosition F) :
  daily_earnings p = Ok (f_quot (annual_earnings p) (f_of_Z 365)).
Proof. apply truediv_nonzero, f_year_nonzero. Qed.

Lemma net_apy_Ok (p : MarginPosition F) :
  f_is_zero (amount p) = false ->
  net_apy p = Ok (f_quot (annual_earnings p) (collateral p) * f_of_Z 100).
Proof.
  intros Hz. unfold net_apy. fold (annual_earnings p).
  rewrite truediv_nonzero by exact Hz. reflexivity.
Qed.

Lemma net_apy_Raise (p : MarginPosition F) :
  f_is_zero (amount p) = true -> net_apy p = Raise ZeroDivisionError.
Proof.
  intros Hz. unfold net_apy. rewrite truediv_zero by exact Hz. reflexivity.
Qed.

Lemma projection_Ok (lev : F) (p : MarginPosition F) :
  f_is_zero (amount p) = false -> projection lev p = Ok (row_of lev p).
Proof.
  intros Hz. unfold projection.
  rewrite (net_apy_Ok p Hz), monthly_earnings_Ok, daily_earnings_Ok.
  reflexivity.
Qed.

Lemma projection_Raise (lev : F) (p : MarginPosition F) :
  f_is_zero (amount p) = true -> projection lev p = Raise ZeroDivisionError.
Proof.
  intros Hz. unfold projection. rewrite (net_apy_Raise p Hz). reflexivity.
Qed.

(** One iteration, once the bound is known. *)
Lemma sensitivity_step_kept (base : MarginPosition F) (bound lev : F)
  (acc : list (SensitivityRow F)) :
  max_leverage base = Ok bound ->
  (lev <=? bound) = true ->
  sensitivity_step base acc lev =
    (row <- projection lev (test_pos base lev) ;; Ok (acc ++ [row])).
Proof.
  intros Hb Hle. unfold sensitivity_step. rewrite Hb. simpl.
  rewrite Hle. reflexivity.
Qed.

Lemma sensitivity_step_omitted (base : MarginPosition F) (bound lev : F)
  (acc : list (SensitivityRow F)) :
  max_leverage base = Ok bound ->
  (lev <=? bound) = false ->
  sensitivity_step base acc lev = Ok acc.
Proof.
  intros Hb Hle. unfold sensitivity_step. rewrite Hb. simpl.
  rewrite Hle. reflexivity.
Qed.

(** The loop from any accumulated list: it appends, in order, the rows
    of the candidates the bound admits. *)
Lemma for_each_sensitivity_step (base : MarginPosition F) (bound : F) :
  max_leverage base = Ok bound ->
  f_is_zero (amount base) = false ->
  forall (candidates : list F) (acc : list (SensitivityRow F)),
    for_each (sensitivity_step base) candidates acc =
      Ok (acc ++ map (fun lev => row_of lev (test_pos base lev))
                     (filter (fun lev => lev <=? bound) candidates)).
Proof.
  intros Hb Hz candidates.
  induction candidates as [| lev rest IH]; intros acc; simpl.
  - rewrite app_nil_r. reflexivity.
  - destruct (lev <=? bound) eqn:Hle.
    + rewrite (sensitivity_step_kept base bound lev acc Hb Hle).
      rewrite projection_Ok by exact Hz. simpl.
      rewrite IH, <- app_assoc. reflexivity.
    + rewrite (sensitivity_step_omitted base bound lev acc Hb Hle). simpl.
      apply IH.
Qed.

Lemma Generate_filter_map (base : MarginPosition F) (bound : F)
  (candidates : list F) :
  max_leverage base = Ok bound ->
  f_is_zero (amount base) = false ->
  Generate base candidates =
    Ok (map (fun lev => row_of lev (test_pos base lev))
            (filter (fun lev => lev <=? bound) candidates)).
Proof.
  intros Hb Hz. unfold Generate.
  rewrite (for_each_sensitivity_step base bound Hb Hz). reflexivity.
Qed.

(** With the menu of [main], the row of the bound is the last one
    whenever the bound compares below itself. *)
Lemma sensitivity_data_last (base : MarginPosition F) (bound : F) :
  max_leverage base = Ok bound ->
  f_is_zero (amount base) = false ->
  (bound <=? bound) = true ->
  exists rows,
    sensitivity_data base = Ok (rows ++ [row_of bound (test_pos base bound)]).
Proof.
  intros Hb Hz Hrefl. unfold sensitivity_data, leverages.
  rewrite Hb. simpl bind.
  rewrite (Generate_filter_map base bound _ Hb Hz).
  exists (map (fun lev => row_of lev (test_pos base lev))
            (filter (fun lev => lev <=? bound)
               [f_of_Z 1; f_of_Z 2; f_of_Z 3; f_of_Z 4; f_of_Z 5])).
  change [f_of_Z 1; f_of_Z 2; f_of_Z 3; f_of_Z 4; f_of_Z 5; bound]
    with ([f_of_Z 1; f_of_Z 2; f_of_Z 3; f_of_Z 4; f_of_Z 5] ++ [bound]).
  rewrite filter_app, map_app. simpl (filter _ [bound]). rewrite Hrefl.
  reflexivity.
Qed.

End Shape.

(** ** Construction *)

(** C1 (as stated, refuted): the specification has construction fail
    with an input error when an invariant is violated.  The dataclass
    validates nothing: a zero amount, a loan-to-value of exactly one
    and a negative borrow rate each violate an invariant of section 3,
    and each construction returns the instance holding those values. *)
Lemma Construct_accepts_invalid_inputs :
  (~ Exact.valid_inputs 0 (8 # 10) 5 (1376 # 10000) (1097 # 10000) /\
   Construct 0 (8 # 10) 5 (1376 # 10000) (1097 # 10000) =
     Ok {| amount := 0; ltv := 8 # 10; leverage := 5;
           collateral_rate := 1376 # 10000; borrow_rate := 1097 # 10000 |}) /\
  (~ Exact.valid_inputs 100 1 5 (1376 # 10000) (1097 # 10000) /\
   Construct 100 1 5 (1376 # 10000) (1097 # 10000) =
     Ok {| amount := 100; ltv := 1; leverage := 5;
           collateral_rate := 1376 # 10000; borrow_rate := 1097 # 10000 |}) /\
  (~ Exact.valid_inputs 100 (8 # 10) 5 (1376 # 10000) (- (1 # 100)) /\
   Construct 100 (8 # 10) 5 (1376 # 10000) (- (1 # 100)) =
     Ok {| amount := 100; ltv := 8 # 10; leverage := 5;
           collateral_rate := 1376 # 10000; borrow_rate := - (1 # 100) |}).
Proof.
  unfold Exact.valid_inputs.
  repeat split; try reflexivity; intros (Ha & (Hl0 & Hl1) & _ & _ & Hb).
  - revert Ha. apply Qlt_irrefl.
  - revert Hl1. apply Qlt_irrefl.
  - revert Hb. apply Qlt_not_le. reflexivity.
Qed.

(** C1 (amended): construction performs no validation.  In every
    arithmetic and for every five numbers it succeeds and returns the
    instance whose fields are exactly the arguments; in particular it
    succeeds when all invariants hold, and it never raises. *)
Theorem Construct_stores_arguments {F : Type} `{PyFloat F}
  (a l lev cr br : F) :
  exists p : MarginPosition F,
    Construct a l lev cr br = Ok p /\
    amount p = a /\ ltv p = l /\ leverage p = lev /\
    collateral_rate p = cr /\ borrow_rate p = br /\
    forall e, Construct a l lev cr br <> Raise e.
Proof.
  eexists. split; [reflexivity |].
  repeat split. intros e He. discriminate He.
Qed.

(** ** The accessors *)

(** C2: the earnings accessors are the formulas of section 3.
    [annual_earnings] is the rate on the collateral times the leveraged
    collateral minus the rate on the borrow times the borrow;
    [net_apy] is [annual_earnings / collateral * 100] (Python raising
    when the collateral is zero); [monthly_earnings] and
    [daily_earnings] are [annual_earnings / 12] and
    [annual_earnings / 365].  This holds in every arithmetic. *)
Theorem earnings_formulas {F : Type} `{PyFloat F} (p : MarginPosition F) :
  annual_earnings p =
    (collateral_rate p * collateral p * leverage p
     - borrow_rate p * borrow p)%py /\
  net_apy p =
    (q <- truediv (annual_earnings p) (collateral p) ;;
     Ok (q * f_of_Z 100)%py) /\
  net_apy p =
    (if f_is_zero (collateral p) then Raise ZeroDivisionError
     else Ok (f_quot (annual_earnings p) (collateral p) * f_of_Z 100)%py) /\
  monthly_earnings p = Ok (f_quot (annual_earnings p) (f_of_Z 12)) /\
  daily_earnings p = Ok (f_quot (annual_earnings p) (f_of_Z 365)).
Proof.
  split; [reflexivity |].
  split; [reflexivity |].
  split.
  - unfold collateral. destruct (f_is_zero (amount p)) eqn:Hz.
    + apply net_apy_Raise, Hz.
    + apply net_apy_Ok, Hz.
  - split; [apply monthly_earnings_Ok | apply daily_earnings_Ok].
Qed.

(** C3: the position-size accessors: [collateral] is the amount,
    [borrow] is [amount * (leverage - 1)] and [deposit] is
    [collateral + borrow], in every arithmetic. *)
Theorem position_size_formulas {F : Type} `{PyFloat F} (p : MarginPosition F) :
  collateral p = amount p /\
  borrow p = (amount p * (leverage p - f_of_Z 1))%py /\
  deposit p = (collateral p + borrow p)%py.
Proof. repeat split. Qed.

(** ** The sensitivity table *)

(** C4: for a base position whose bound [max_leverage] is defined and
    whose amount is not zero, and for every list of candidates,
    [Generate] returns without raising the rows of exactly the
    candidates [L] with [L <= bound], one row each and in the order of
    the candidates; the other candidates are dropped.  The row of [L]
    is the projection of the position [test_pos base L], which has the
    base's amount, loan-to-value and rates and leverage [L]. *)
Theorem Generate_filters_in_order {F : Type} `{PyFloat F}
  (base : MarginPosition F) (candidates : list F) (bound : F) :
  max_leverage base = Ok bound ->
  f_is_zero (amount base) = false ->
  Generate base candidates =
    Ok (map (fun L => row_of L (test_pos base L))
            (filter (fun L => (L <=? bound)%py) candidates)) /\
  forall L : F,
    projection L (test_pos base L) = Ok (row_of L (test_pos base L)) /\
    row_leverage (row_of L (test_pos base L)) = L /\
    amount (test_pos base L) = amount base /\
    ltv (test_pos base L) = ltv base /\
    leverage (test_pos base L) = L /\
    collateral_rate (test_pos base L) = collateral_rate base /\
    borrow_rate (test_pos base L) = borrow_rate base.
Proof.
  intros Hb Hz. split.
  - apply Generate_filter_map; assumption.
  - intros L. split; [| repeat split].
    apply projection_Ok. exact Hz.
Qed.

(** The specification's case of a bound of 1.25 (loan-to-value 0.2):
    the candidate 5 is dropped and the candidates 1 and 1.25 are kept,
    in that order. *)
Lemma Generate_filters_in_order_witness :
  let base := {| amount := 100; ltv := 2 # 10; leverage := 1;
                 collateral_rate := 1376 # 10000;
                 borrow_rate := 1097 # 10000 |} in
  Generate base [1; 5; 125 # 100] =
    Ok [row_of 1 (test_pos base 1);
        row_of (125 # 100) (test_pos base (125 # 100))].
Proof.
  intros base.
  exact (proj1 (Generate_filters_in_order base [1; 5; 125 # 100]
                  (1 / (1 - (2 # 10))) eq_refl eq_refl)).
Defined.

(** ** Exact arithmetic: the tests on rationals *)

Lemma Q_is_zero_false (q : Q) : ~ q == 0 -> f_is_zero q = false.
Proof.
  intros Hq. simpl. destruct (Qeq_bool q 0) eqn:E; [| reflexivity].
  apply Qeq_bool_iff in E. contradiction.
Qed.

Lemma Q_is_zero_true (q : Q) : q == 0 -> f_is_zero q = true.
Proof. intros Hq. simpl. apply Qeq_bool_iff. exact Hq. Qed.

Lemma Q_le_refl (q : Q) : f_le q q = true.
Proof. simpl. apply Qle_bool_iff. apply Qle_refl. Qed.

Lemma Q_max_leverage_Ok (p : MarginPosition Q) :
  ~ ltv p == 1 -> max_leverage p = Ok (1 / (1 - ltv p)).
Proof.
  intros Hl. unfold max_leverage.
  rewrite truediv_nonzero; [reflexivity |].
  apply Q_is_zero_false. change (~ 1 - ltv p == 0). intros E. apply Hl. lra.
Qed.

Lemma Q_max_leverage_Raise (p : MarginPosition Q) :
  ltv p == 1 -> max_leverage p = Raise ZeroDivisionError.
Proof.
  intros Hl. unfold max_leverage. apply truediv_zero.
  apply Q_is_zero_true. change (1 - ltv p == 0). lra.
Qed.

(** ** Binary64: the comparison of a float with itself *)

Lemma float_leb_refl (x : float) :
  PrimFloat.eqb x x = true -> PrimFloat.leb x x = true.
Proof.
  rewrite FloatAxioms.eqb_spec, FloatAxioms.leb_spec. unfold SFeqb, SFleb.
  destruct (SFcompare (Prim2SF x) (Prim2SF x)) as [[ | | ] |];
    intros E; first [reflexivity | discriminate E].
Qed.

(** ** The menu of [main] *)

Section Menu.

Context {F : Type} `{PyFloat F}.

Local Open Scope py_scope.

(** When the amount is zero the first kept candidate makes the loop
    raise: its net yield divides by the collateral. *)
Lemma for_each_sensitivity_step_raises (base : MarginPosition F) (bound : F) :
  max_leverage base = Ok bound ->
  f_is_zero (amount base) = true ->
  forall (candidates : list F) (acc : list (SensitivityRow F)),
    (exists L, In L candidates /\ (L <=? bound) = true) ->
    for_each (sensitivity_step base) candidates acc = Raise ZeroDivisionError.
Proof.
  intros Hb Hz candidates.
  induction candidates as [| lev rest IH]; intros acc (L & HIn & HL).
  - destruct HIn.
  - simpl. destruct (lev <=? bound) eqn:Hle.
    + rewrite (sensitivity_step_kept base bound lev acc Hb Hle).
      rewrite projection_Raise by exact Hz. reflexivity.
    + rewrite (sensitivity_step_omitted base bound lev acc Hb Hle). simpl.
      apply IH. exists L. split; [| exact HL].
      destruct HIn as [E | HIn]; [| exact HIn].
      subst lev. rewrite HL in Hle. discriminate Hle.
Qed.

(** The table of [main] is never the empty list, provided the bound
    compares below itself. *)
Lemma sensitivity_data_not_nil (base : MarginPosition F) :
  (forall bound, max_leverage base = Ok bound -> (bound <=? bound) = true) ->
  sensitivity_data base <> Ok [].
Proof.
  intros Hrefl. destruct (max_leverage base) as [bound | e] eqn:Hb.
  - specialize (Hrefl bound eq_refl).
    destruct (f_is_zero (amount base)) eqn:Hz.
    + unfold sensitivity_data, leverages. rewrite Hb. simpl bind.
      unfold Generate.
      rewrite (for_each_sensitivity_step_raises base bound Hb Hz).
      * discriminate.
      * exists bound. split; [| exact Hrefl].
        do 5 right. left. reflexivity.
    + destruct (sensitivity_data_last base bound Hb Hz Hrefl) as [rows E].
      rewrite E. intros Habs. injection Habs as Habs.
      destruct rows; discriminate Habs.
  - unfold sensitivity_data, leverages. rewrite Hb. discriminate.
Qed.

End Menu.

(** C5: with the menu [1, 2, 3, 4, 5, max_leverage] of [main], where the
    last candidate is the position's own computed bound:
    - over the rationals the table is never the empty list, for any
      position at all;
    - for a position with a positive amount and a loan-to-value strictly
      between 0 and 1 the table is returned and its last row is the row
      of the bound;
    - in binary64 the same holds whenever the computed bound is a
      number (not a NaN) and the amount is not zero: the bound is
      compared with itself, so rounding cannot exclude it;
    - for the worked example (amount 100, loan-to-value 0.8, leverage 5,
      rates 0.1376 and 0.1097) and the candidates [1, 2, 3, 4, 5, 5.0]
      the result has exactly 6 rows, with the leverages of the
      candidates in their order, both over the rationals (where the
      bound is 5) and in binary64 (where the computed bound is
      5.000000000000001 and the menu of [main] gives 6 rows as well). *)
Theorem standard_menu_keeps_bound :
  (forall base : MarginPosition Q, sensitivity_data base <> Ok []) /\
  (forall base : MarginPosition Q,
      0 < amount base -> 0 < ltv base < 1 ->
      max_leverage base = Ok (1 / (1 - ltv base)) /\
      exists rows,
        sensitivity_data base =
          Ok (rows ++ [row_of (1 / (1 - ltv base))
                         (test_pos base (1 / (1 - ltv base)))])) /\
  (forall (base : MarginPosition float) (bound : float),
      max_leverage base = Ok bound ->
      PrimFloat.eqb bound bound = true ->
      f_is_zero (amount base) = false ->
      exists rows,
        sensitivity_data base =
          Ok (rows ++ [row_of bound (test_pos base bound)])) /\
  (exists bound rows,
      max_leverage Exact.example_position = Ok bound /\ bound == 5 /\
      Generate Exact.example_position [1; 2; 3; 4; 5; 5] = Ok rows /\
      length rows = 6%nat /\
      Exact.row_leverages rows = [1; 2; 3; 4; 5; 5]) /\
  (exists rows,
      Generate Binary64.example_position [1; 2; 3; 4; 5; 5]%float = Ok rows /\
      length rows = 6%nat /\
      Binary64.row_leverages rows = [1; 2; 3; 4; 5; 5]%float) /\
  (exists rows,
      max_leverage Binary64.example_position = Ok 0x1.4000000000001p+2%float /\
      sensitivity_data Binary64.example_position = Ok rows /\
      length rows = 6%nat /\
      Binary64.row_leverages rows =
        [1; 2; 3; 4; 5; 0x1.4000000000001p+2]%float).
Proof.
  split; [| split; [| split; [| split; [| split]]]].
  - intros base. apply sensitivity_data_not_nil.
    intros bound _. apply Q_le_refl.
  - intros base Ha [Hl0 Hl1].
    assert (Hb : max_leverage base = Ok (1 / (1 - ltv base))).
    { apply Q_max_leverage_Ok. intros E. rewrite E in Hl1.
      revert Hl1. apply Qlt_irrefl. }
    split; [exact Hb |].
    apply sensitivity_data_last.
    + exact Hb.
    + apply Q_is_zero_false. intros E. rewrite E in Ha.
      revert Ha. apply Qlt_irrefl.
    + apply Q_le_refl.
  - intros base bound Hb Hnan Hz.
    apply sensitivity_data_last; [exact Hb | exact Hz |].
    apply float_leb_refl. exact Hnan.
  - eexists. eexists.
    split; [vm_compute; reflexivity |].
    split; [reflexivity |].
    split; [vm_compute; reflexivity |].
    split; reflexivity.
  - eexists.
    split; [vm_compute; reflexivity |].
    split; reflexivity.
  - eexists.
    split; [vm_compute; reflexivity |].
    split; [vm_compute; reflexivity |].
    split; reflexivity.
Qed.

(** The worked example satisfies the hypotheses of the second part:
    its table ends with the row of its bound. *)
Lemma standard_menu_keeps_bound_witness :
  max_leverage Exact.example_position = Ok (1 / (1 - (8 # 10))) /\
  exists rows,
    sensitivity_data Exact.example_position =
      Ok (rows ++ [row_of (1 / (1 - (8 # 10)))
                     (test_pos Exact.example_position (1 / (1 - (8 # 10))))]).
Proof.
  apply (proj1 (proj2 standard_menu_keeps_bound) Exact.example_position).
  - reflexivity.
  - split; reflexivity.
Defined.

(** ** Exact arithmetic: the laws of the formulas

    What the formulas of the accessors give when no operation rounds.
    The program computes in binary64; its statements are further below. *)



(** * Further properties of the code *)

(** ** The loop, whatever it meets *)

Lemma for_each_app {A S : Type} (body : S -> A -> result S)
  (xs ys : list A) (s : S) :
  for_each body (xs ++ ys) s =
    (s' <- for_each body xs s ;; for_each body ys s').
Proof.
  revert s. induction xs as [| x xs IH]; intros s; simpl.
  - reflexivity.
  - destruct (body s x) as [s' | e]; simpl; [apply IH | reflexivity].
Qed.

Lemma for_each_ext {A S : Type} (f g : S -> A -> result S) (xs : list A) :
  (forall s x, f s x = g s x) ->
  forall s, for_each f xs s = for_each g xs s.
Proof.
  intros Hfg. induction xs as [| x xs IH]; intros s; simpl.
  - reflexivity.
  - rewrite Hfg. destruct (g s x) as [s' | e]; simpl; [apply IH | reflexivity].
Qed.

Lemma existsb_false_filter {A : Type} (f : A -> bool) (l : list A) :
  existsb f l = false -> filter f l = [].
Proof.
  induction l as [| a l IH]; simpl; intros E; [reflexivity |].
  apply orb_false_iff in E. destruct E as [Ea El].
  rewrite Ea. apply IH, El.
Qed.

Section Table.

Context {F : Type} `{PyFloat F}.

Local Open Scope py_scope.

(** An iteration appends to the list it is given and reads nothing
    else of it. *)
Lemma sensitivity_step_acc (base : MarginPosition F) (lev : F)
  (acc : list (SensitivityRow F)) :
  sensitivity_step base acc lev =
    (rows <- sensitivity_step base [] lev ;; Ok (acc ++ rows)).
Proof.
  unfold sensitivity_step.
  destruct (max_leverage base) as [bound | e]; simpl; [| reflexivity].
  destruct (lev <=? bound).
  - destruct (projection lev (test_pos base lev)) as [row | e]; reflexivity.
  - simpl. rewrite app_nil_r. reflexivity.
Qed.

Lemma for_each_sensitivity_step_acc (base : MarginPosition F)
  (candidates : list F) :
  forall acc : list (SensitivityRow F),
    for_each (sensitivity_step base) candidates acc =
      (rows <- for_each (sensitivity_step base) candidates [] ;;
       Ok (acc ++ rows)).
Proof.
  induction candidates as [| lev rest IH]; intros acc; simpl.
  - rewrite app_nil_r. reflexivity.
  - rewrite (sensitivity_step_acc base lev acc).
    destruct (sensitivity_step base [] lev) as [first | e]; simpl;
      [| reflexivity].
    rewrite (IH (acc ++ first)), (IH first).
    destruct (for_each (sensitivity_step base) rest []) as [rows | e]; simpl;
      [| reflexivity].
    rewrite app_assoc. reflexivity.
Qed.

Lemma Generate_nil (base : MarginPosition F) : Generate base [] = Ok [].
Proof. reflexivity. Qed.

Lemma Generate_bound_raises (base : MarginPosition F) (e : exn)
  (lev : F) (rest : list F) :
  max_leverage base = Raise e -> Generate base (lev :: rest) = Raise e.
Proof.
  intros Hb. unfold Generate. simpl.
  unfold sensitivity_step. rewrite Hb. reflexivity.
Qed.

Lemma Generate_zero_amount (base : MarginPosition F) (bound : F)
  (candidates : list F) :
  max_leverage base = Ok bound ->
  f_is_zero (amount base) = true ->
  Generate base candidates =
    if existsb (fun L => L <=? bound) candidates
    then Raise ZeroDivisionError else Ok [].
Proof.
  intros Hb Hz. unfold Generate.
  destruct (existsb (fun L => L <=? bound) candidates) eqn:Ex.
  - apply (for_each_sensitivity_step_raises base bound Hb Hz).
    apply existsb_exists in Ex. exact Ex.
  - generalize (@nil (SensitivityRow F)).
    induction candidates as [| lev rest IH]; intros acc; simpl.
    + reflexivity.
    + simpl in Ex. apply orb_false_iff in Ex. destruct Ex as [Hlev Hrest].
      rewrite (sensitivity_step_omitted base bound lev acc Hb Hlev). simpl.
      apply IH, Hrest.
Qed.

Lemma row_leverage_row_of (candidates : list F) (base : MarginPosition F) :
  map row_leverage (map (fun L => row_of L (test_pos base L)) candidates) =
    candidates.
Proof.
  rewrite map_map. simpl. apply map_id.
Qed.

End Table.

(** X1: the table composes over concatenation.  Running the loop of
    [main] on the candidates [xs ++ ys] gives the rows of [xs] followed
    by the rows of [ys], and raises exactly when one of the two runs
    raises, the run on [xs] first. *)
Theorem Generate_app {F : Type} `{PyFloat F}
  (base : MarginPosition F) (xs ys : list F) :
  Generate base (xs ++ ys) =
    (front <- Generate base xs ;;
     back <- Generate base ys ;;
     Ok (front ++ back)).
Proof.
  unfold Generate. rewrite for_each_app.
  destruct (for_each (sensitivity_step base) xs []) as [front | e]; simpl;
    [| reflexivity].
  apply for_each_sensitivity_step_acc.
Qed.

(** X2: the table does not depend on the leverage of the position it
    is computed from: every row is computed from a copy of the position
    with the candidate's leverage, and the bound only reads the
    loan-to-value.  This holds for every arithmetic and also when the
    computation raises. *)
Theorem Generate_ignores_leverage {F : Type} `{PyFloat F}
  (base : MarginPosition F) (lev : F) (candidates : list F) :
  Generate (test_pos base lev) candidates = Generate base candidates /\
  sensitivity_data (test_pos base lev) = sensitivity_data base.
Proof.
  assert (Hgen : forall cs,
             Generate (test_pos base lev) cs = Generate base cs).
  { intros cs. unfold Generate. apply for_each_ext.
    intros s x. reflexivity. }
  split; [apply Hgen |].
  unfold sensitivity_data, leverages.
  change (max_leverage (test_pos base lev)) with (max_leverage base).
  destruct (max_leverage base) as [bound | e]; simpl; [apply Hgen | reflexivity].
Qed.

(** X3: when the table cannot be computed.  With no candidate the loop
    returns the empty list without reading the position.  With at least
    one candidate and a loan-to-value for which [max_leverage] raises,
    the loop raises the same exception.  With an amount that tests as
    zero, the loop raises [ZeroDivisionError] as soon as one candidate
    is within the bound (its net yield divides by the collateral) and
    returns the empty list when none is. *)
Theorem Generate_failures {F : Type} `{PyFloat F} (base : MarginPosition F) :
  Generate base [] = Ok [] /\
  (forall e lev rest,
      max_leverage base = Raise e ->
      Generate base (lev :: rest) = Raise e) /\
  (forall bound candidates,
      max_leverage base = Ok bound ->
      f_is_zero (amount base) = true ->
      Generate base candidates =
        if existsb (fun L => (L <=? bound)%py) candidates
        then Raise ZeroDivisionError else Ok []).
Proof.
  split; [reflexivity |]. split.
  - intros e lev rest. apply Generate_bound_raises.
  - intros bound candidates. apply Generate_zero_amount.
Qed.

(** The two failures on rationals: a loan-to-value of one, and a zero
    amount with the candidate 1 within the bound 5. *)
Lemma Generate_failures_witness :
  Generate {| amount := 100; ltv := 1; leverage := 1;
              collateral_rate := 1376 # 10000;
              borrow_rate := 1097 # 10000 |} [1; 2] =
    Raise ZeroDivisionError /\
  Generate {| amount := 0; ltv := 8 # 10; leverage := 1;
              collateral_rate := 1376 # 10000;
              borrow_rate := 1097 # 10000 |} [7; 1] =
    Raise ZeroDivisionError.
Proof.
  split.
  - exact (proj1 (proj2 (Generate_failures
                           {| amount := 100; ltv := 1; leverage := 1;
                              collateral_rate := 1376 # 10000;
                              borrow_rate := 1097 # 10000 |}))
             ZeroDivisionError 1 [2] eq_refl).
  - exact (proj2 (proj2 (Generate_failures
                           {| amount := 0; ltv := 8 # 10; leverage := 1;
                              collateral_rate := 1376 # 10000;
                              borrow_rate := 1097 # 10000 |}))
             (1 / (1 - (8 # 10))) [7; 1] eq_refl eq_refl).
Defined.

(** X4: whenever the loop returns, the leverages of its rows are the
    candidates within the bound, in their order, so there are never
    more rows than candidates; and it can only return without a bound
    when there was no candidate. *)
Theorem Generate_leverage_column {F : Type} `{PyFloat F}
  (base : MarginPosition F) (candidates : list F)
  (rows : list (SensitivityRow F)) :
  Generate base candidates = Ok rows ->
  (forall bound,
      max_leverage base = Ok bound ->
      map row_leverage rows =
        filter (fun L => (L <=? bound)%py) candidates) /\
  (forall e, max_leverage base = Raise e -> candidates = [] /\ rows = []) /\
  (length rows <= length candidates)%nat.
Proof.
  intros Hgen.
  assert (Hcol : forall bound,
             max_leverage base = Ok bound ->
             map row_leverage rows =
               filter (fun L => (L <=? bound)%py) candidates).
  { intros bound Hb. destruct (f_is_zero (amount base)) eqn:Hz.
    - rewrite (Generate_zero_amount base bound candidates Hb Hz) in Hgen.
      destruct (existsb (fun L => (L <=? bound)%py) candidates) eqn:Ex;
        [discriminate Hgen |].
      injection Hgen as <-. rewrite existsb_false_filter by exact Ex.
      reflexivity.
    - rewrite (Generate_filter_map base bound candidates Hb Hz) in Hgen.
      injection Hgen as <-. apply row_leverage_row_of. }
  assert (Hnone : forall e,
             max_leverage base = Raise e -> candidates = [] /\ rows = []).
  { intros e Hb. destruct candidates as [| lev rest].
    - split; [reflexivity |]. rewrite Generate_nil in Hgen.
      injection Hgen as <-. reflexivity.
    - rewrite (Generate_bound_raises base e lev rest Hb) in Hgen.
      discriminate Hgen. }
  split; [exact Hcol |]. split; [exact Hnone |].
  destruct (max_leverage base) as [bound | e] eqn:Hb.
  - rewrite <- (length_map row_leverage), (Hcol bound eq_refl).
    apply filter_length_le.
  - destruct (Hnone e eq_refl) as [-> ->]. apply le_n.
Qed.

Lemma Generate_leverage_column_witness :
  let base := {| amount := 100; ltv := 2 # 10; leverage := 1;
                 collateral_rate := 1376 # 10000;
                 borrow_rate := 1097 # 10000 |} in
  map row_leverage [row_of 1 (test_pos base 1)] =
    filter (fun L => Qle_bool L (1 / (1 - (2 # 10)))) [1; 5].
Proof.
  intros base.
  exact (proj1 (Generate_leverage_column base [1; 5]
                  [row_of 1 (test_pos base 1)] eq_refl)
           (1 / (1 - (2 # 10))) eq_refl).
Defined.

(** * Binary64: divisions that cannot raise *)

(** ** Rounding keeps a mantissa away from zero

    The operations of binary64 are specified on [spec_float] by
    [SpecFloat]: a result is obtained by shifting a mantissa right to
    53 bits and rounding it.  At an exponent of at least [emin = -1074]
    the shift never removes all the bits. *)

Local Open Scope Z_scope.

Lemma shr_1_lower (r : shr_record) (k : Z) :
  0 <= k -> 2 ^ (k + 1) <= shr_m r -> 2 ^ k <= shr_m (shr_1 r).
Proof.
  intros Hk. rewrite Z.pow_add_r by lia. change (2 ^ 1) with 2.
  destruct r as [m rb sb]. simpl.
  pose proof (Z.pow_pos_nonneg 2 k ltac:(lia) Hk) as Hpos.
  destruct m as [| [p | p |] | p]; simpl; lia.
Qed.

Lemma iter_shr_1_lower (p : positive) :
  forall (r : shr_record) (k : Z),
    0 <= k -> 2 ^ (k + Zpos p) <= shr_m r ->
    2 ^ k <= shr_m (iter_pos shr_1 p r).
Proof.
  induction p as [p IH | p IH |]; intros r k Hk Hr; simpl.
  - apply IH; [exact Hk |]. apply IH; [lia |].
    apply shr_1_lower; [lia |].
    replace (k + Zpos p + Zpos p + 1) with (k + Zpos p~1) by lia. exact Hr.
  - apply IH; [exact Hk |]. apply IH; [lia |].
    replace (k + Zpos p + Zpos p) with (k + Zpos p~0) by lia. exact Hr.
  - apply shr_1_lower; assumption.
Qed.

Lemma shr_1_nonneg (r : shr_record) : 0 <= shr_m r -> 0 <= shr_m (shr_1 r).
Proof.
  destruct r as [m rb sb]. simpl.
  destruct m as [| [p | p |] | p]; simpl; lia.
Qed.

Lemma iter_shr_1_nonneg (p : positive) :
  forall r : shr_record, 0 <= shr_m r -> 0 <= shr_m (iter_pos shr_1 p r).
Proof.
  induction p as [p IH | p IH |]; intros r Hr; simpl.
  - apply IH, IH, shr_1_nonneg, Hr.
  - apply IH, IH, Hr.
  - apply shr_1_nonneg, Hr.
Qed.

Lemma digits2_pos_bounds (m : positive) :
  2 ^ (Zpos (digits2_pos m) - 1) <= Zpos m < 2 ^ Zpos (digits2_pos m).
Proof.
  induction m as [m IH | m IH |]; simpl digits2_pos.
  - rewrite Pos2Z.inj_succ.
    replace (Z.succ (Zpos (digits2_pos m)) - 1)
      with (Zpos (digits2_pos m) - 1 + 1) by lia.
    rewrite Z.pow_succ_r by lia. rewrite Z.pow_add_r by lia.
    change (2 ^ 1) with 2. lia.
  - rewrite Pos2Z.inj_succ.
    replace (Z.succ (Zpos (digits2_pos m)) - 1)
      with (Zpos (digits2_pos m) - 1 + 1) by lia.
    rewrite Z.pow_succ_r by lia. rewrite Z.pow_add_r by lia.
    change (2 ^ 1) with 2. lia.
  - simpl. lia.
Qed.

Lemma fexp_lower (e : Z) : -1074 <= fexp prec emax e.
Proof. unfold fexp, SpecFloat.emin, prec, emax. lia. Qed.

Lemma shr_record_of_loc_m (m : Z) (l : location) :
  shr_m (shr_record_of_loc m l) = m.
Proof. destruct l as [| []]; reflexivity. Qed.

Lemma shr_fexp_positive (m : positive) (e : Z) (l : location) :
  -1074 <= e ->
  1 <= shr_m (fst (shr_fexp prec emax (Zpos m) e l)) /\
  -1074 <= snd (shr_fexp prec emax (Zpos m) e l).
Proof.
  intros He. unfold shr_fexp, shr. simpl Zdigits2.
  pose proof (digits2_pos_bounds m) as [Hlo _].
  set (d := Zpos (digits2_pos m)) in *.
  destruct (fexp prec emax (d + e) - e) as [| n | n] eqn:En;
    simpl fst; simpl snd.
  - rewrite shr_record_of_loc_m. lia.
  - assert (Hn : Zpos n = d - 53).
    { unfold fexp, SpecFloat.emin, prec, emax in En. lia. }
    split; [| lia].
    change 1 with (2 ^ 0). apply iter_shr_1_lower; [lia |].
    rewrite shr_record_of_loc_m. simpl (0 + Zpos n). rewrite Hn.
    eapply Z.le_trans; [| exact Hlo].
    apply Z.pow_le_mono_r; lia.
  - rewrite shr_record_of_loc_m. lia.
Qed.

Lemma shr_fexp_nonneg (m e : Z) (l : location) :
  0 <= m -> 0 <= shr_m (fst (shr_fexp prec emax m e l)).
Proof.
  intros Hm. unfold shr_fexp, shr.
  destruct (fexp prec emax (Zdigits2 m + e) - e) as [| n | n];
    simpl fst; try (rewrite shr_record_of_loc_m; exact Hm).
  apply iter_shr_1_nonneg. rewrite shr_record_of_loc_m. exact Hm.
Qed.

Lemma round_nearest_even_lower (m : Z) (l : location) :
  m <= round_nearest_even m l.
Proof.
  destruct l as [| []]; simpl; try lia.
  destruct (Z.even m); lia.
Qed.

(** A rounded positive mantissa gives a finite number or an infinity. *)
Lemma binary_round_aux_positive (s : bool) (m : positive) (e : Z)
  (l : location) :
  -1074 <= e ->
  is_SF_zero (binary_round_aux prec emax s (Zpos m) e l) = false /\
  is_SF_nan (binary_round_aux prec emax s (Zpos m) e l) = false.
Proof.
  intros He. unfold binary_round_aux.
  destruct (shr_fexp_positive m e l He) as [Hm1 He1].
  destruct (shr_fexp prec emax (Zpos m) e l) as [mrs' e'].
  simpl fst in Hm1. simpl snd in He1.
  pose proof (round_nearest_even_lower (shr_m mrs') (loc_of_shr_record mrs'))
    as Hr.
  destruct (round_nearest_even (shr_m mrs') (loc_of_shr_record mrs'))
    as [| m' | m']; try lia.
  destruct (shr_fexp_positive m' e' loc_Exact He1) as [Hm2 _].
  destruct (shr_fexp prec emax (Zpos m') e' loc_Exact) as [mrs'' e''].
  simpl fst in Hm2.
  destruct (shr_m mrs'') as [| m'' | m'']; try lia.
  destruct (e'' <=? emax - prec); split; reflexivity.
Qed.

(** A rounded mantissa that is not negative never gives a NaN. *)
Lemma binary_round_aux_not_nan (s : bool) (m e : Z) (l : location) :
  0 <= m ->
  is_SF_nan (binary_round_aux prec emax s m e l) = false.
Proof.
  intros Hm. unfold binary_round_aux.
  pose proof (shr_fexp_nonneg m e l Hm) as Hm1.
  destruct (shr_fexp prec emax m e l) as [mrs' e'].
  simpl fst in Hm1.
  pose proof (round_nearest_even_lower (shr_m mrs') (loc_of_shr_record mrs'))
    as Hr.
  pose proof (shr_fexp_nonneg
                (round_nearest_even (shr_m mrs') (loc_of_shr_record mrs'))
                e' loc_Exact ltac:(lia)) as Hm2.
  destruct (shr_fexp prec emax
              (round_nearest_even (shr_m mrs') (loc_of_shr_record mrs'))
              e' loc_Exact) as [mrs'' e''].
  simpl fst in Hm2.
  destruct (shr_m mrs'') as [| m'' | m'']; try lia; [reflexivity |].
  destruct (e'' <=? emax - prec); reflexivity.
Qed.

Lemma binary_round_positive (s : bool) (m : positive) (e : Z) :
  -1074 <= e ->
  is_SF_zero (binary_round prec emax s m e) = false /\
  is_SF_nan (binary_round prec emax s m e) = false.
Proof.
  intros He. unfold binary_round, shl_align.
  pose proof (fexp_lower (Zpos (digits2_pos m) + e)) as Hf.
  destruct (fexp prec emax (Zpos (digits2_pos m) + e) - e) as [| d | d];
    apply binary_round_aux_positive; lia.
Qed.

Lemma binary_normalize_nonzero (m e : Z) (sz : bool) :
  m <> 0 -> -1074 <= e ->
  is_SF_zero (binary_normalize prec emax m e sz) = false /\
  is_SF_nan (binary_normalize prec emax m e sz) = false.
Proof.
  intros Hm He. destruct m as [| m | m]; [contradiction | |];
    apply binary_round_positive; exact He.
Qed.

(** ** One minus a loan-to-value *)

Lemma valid_finite_bounds (s : bool) (m : positive) (e : Z) :
  valid_binary (S754_finite s m e) = true ->
  -1074 <= e /\ Zpos m < 2 ^ 53 /\ (-1074 < e -> 2 ^ 52 <= Zpos m).
Proof.
  intros Hv. change (bounded prec emax m e = true) in Hv.
  unfold bounded, canonical_mantissa in Hv.
  apply andb_true_iff in Hv. destruct Hv as [Hc _].
  apply Z.eqb_eq in Hc.
  pose proof (digits2_pos_bounds m) as [Hlo Hhi].
  unfold fexp, SpecFloat.emin, prec, emax in Hc.
  split; [lia |]. split.
  - eapply Z.lt_le_trans; [exact Hhi |].
    apply Z.pow_le_mono_r; lia.
  - intros He.
    assert (Hd : Zpos (digits2_pos m) = 53) by lia.
    rewrite Hd in Hlo. exact Hlo.
Qed.

Lemma iter_xO_lower (m d : positive) :
  2 * Zpos m <= Zpos (Pos.iter xO m d).
Proof.
  induction d as [| d IH] using Pos.peano_ind.
  - simpl. lia.
  - rewrite Pos.iter_succ. lia.
Qed.

Lemma Prim2SF_one : Prim2SF 1%float = SF_one.
Proof. reflexivity. Qed.

Lemma Prim2SF_zero : Prim2SF 0%float = S754_zero false.
Proof. reflexivity. Qed.

(** The order of a float against one, read on exponent and mantissa. *)
Lemma SFcompare_one_finite (my : positive) (ey : Z) :
  SFcompare (S754_finite false my ey) SF_one =
    Some match ey ?= -52 with
         | Lt => Lt
         | Gt => Gt
         | Eq => Pos.compare_cont Eq my 4503599627370496
         end.
Proof. reflexivity. Qed.

Lemma SFsub_one_other (y : spec_float) :
  valid_binary y = true ->
  is_SF_nan y = false ->
  SFeqb y SF_one = false ->
  is_SF_zero (SFsub prec emax SF_one y) = false /\
  is_SF_nan (SFsub prec emax SF_one y) = false.
Proof.
  intros Hv Hnan Hne. destruct y as [sy | sy | | sy my ey].
  - split; reflexivity.
  - destruct sy; split; reflexivity.
  - discriminate Hnan.
  - destruct (valid_finite_bounds sy my ey Hv) as (He & Hm & Hnormal).
    unfold SF_one, SFsub.
    apply binary_normalize_nonzero; [| lia].
    unfold shl_align.
    destruct sy; unfold cond_Zopp.
    + lia.
    + unfold SFeqb in Hne. rewrite SFcompare_one_finite in Hne.
      destruct (ey ?= -52) eqn:Ecmp.
      * apply Z.compare_eq in Ecmp. subst ey.
        change (Z.min (-52) (-52)) with (-52).
        change (-52 - -52) with 0. cbv iota. cbv beta. unfold fst.
        destruct (Pos.compare_cont Eq my 4503599627370496) eqn:Em;
          try discriminate Hne.
        -- assert (Hmy : Z.pos my < 4503599627370496) by exact Em.
           clear Em. lia.
        -- assert (Hmy : Z.pos my > 4503599627370496) by exact Em.
           clear Em. lia.
      * rewrite Z.compare_lt_iff in Ecmp.
        rewrite Z.min_r by lia.
        replace (ey - ey) with 0 by lia.
        destruct (ey - -52) as [| d | d] eqn:Ed; try lia.
        unfold fst.
        pose proof (iter_xO_lower 4503599627370496 d). lia.
      * rewrite Z.compare_gt_iff in Ecmp.
        rewrite Z.min_l by lia.
        change (-52 - -52) with 0.
        destruct (-52 - ey) as [| d | d] eqn:Ed; try lia.
        unfold fst.
        pose proof (iter_xO_lower my d).
        assert (2 ^ 52 <= Z.pos my) by (apply Hnormal; lia).
        change (2 ^ 52) with 4503599627370496 in *. lia.
Qed.

Lemma SFsub_one_one (y : spec_float) :
  SFeqb y SF_one = true -> SFsub prec emax SF_one y = S754_zero false.
Proof.
  intros Heq. destruct y as [sy | sy | | sy my ey];
    try (destruct sy; discriminate Heq); try discriminate Heq.
  destruct sy; [discriminate Heq |].
  unfold SFeqb in Heq. rewrite SFcompare_one_finite in Heq.
  destruct (ey ?= -52) eqn:Ecmp; try discriminate Heq.
  apply Z.compare_eq in Ecmp. subst ey.
  destruct (Pos.compare_cont Eq my 4503599627370496) eqn:Em;
    try discriminate Heq.
  apply Pos.compare_eq in Em. subst my. reflexivity.
Qed.

(** ** Floats through their specification *)

Lemma float_eqb_zero (x : float) :
  PrimFloat.eqb x 0 = is_SF_zero (Prim2SF x).
Proof.
  rewrite FloatAxioms.eqb_spec, Prim2SF_zero.
  destruct (Prim2SF x) as [s | s | | s m e]; try destruct s; reflexivity.
Qed.

Lemma float_eqb_self (x : float) :
  PrimFloat.eqb x x = negb (is_SF_nan (Prim2SF x)).
Proof.
  rewrite FloatAxioms.eqb_spec. unfold SFeqb.
  destruct (Prim2SF x) as [s | s | | s m e]; try destruct s; try reflexivity;
    unfold SFcompare; rewrite Z.compare_refl, Pos.compare_cont_refl;
    reflexivity.
Qed.

Lemma SF_nan_inv (y : spec_float) : is_SF_nan y = true -> y = S754_nan.
Proof. destruct y; intros E; first [reflexivity | discriminate E]. Qed.

(** The divisor of [max_leverage] is zero exactly at a loan-to-value of
    one. *)
Lemma float_one_minus_is_zero (x : float) :
  PrimFloat.eqb (1 - x) 0 = PrimFloat.eqb x 1.
Proof.
  rewrite float_eqb_zero, FloatAxioms.sub_spec, FloatAxioms.eqb_spec.
  rewrite Prim2SF_one. unfold SF64sub.
  pose proof (Prim2SF_valid x) as Hv.
  destruct (is_SF_nan (Prim2SF x)) eqn:Hnan.
  - apply SF_nan_inv in Hnan. rewrite Hnan. reflexivity.
  - destruct (SFeqb (Prim2SF x) SF_one) eqn:Heq.
    + rewrite (SFsub_one_one _ Heq). reflexivity.
    + apply (SFsub_one_other _ Hv Hnan Heq).
Qed.

Lemma float_one_minus_nan (x : float) :
  is_SF_nan (Prim2SF (1 - x)) = is_SF_nan (Prim2SF x).
Proof.
  rewrite FloatAxioms.sub_spec, Prim2SF_one. unfold SF64sub.
  pose proof (Prim2SF_valid x) as Hv.
  destruct (is_SF_nan (Prim2SF x)) eqn:Hnan.
  - apply SF_nan_inv in Hnan. rewrite Hnan. reflexivity.
  - destruct (SFeqb (Prim2SF x) SF_one) eqn:Heq.
    + rewrite (SFsub_one_one _ Heq). reflexivity.
    + apply (SFsub_one_other _ Hv Hnan Heq).
Qed.

Lemma SFdiv_core_binary_nonneg (mx my : positive) (ex ey : Z) :
  0 <= fst (fst (SFdiv_core_binary prec emax (Zpos mx) ex (Zpos my) ey)).
Proof.
  unfold SFdiv_core_binary.
  set (e' := Z.min _ _). set (s := ex - ey - e').
  set (m' := match s with
             | 0 => Z.pos mx
             | Z.pos _ => Z.shiftl (Z.pos mx) s
             | Z.neg _ => 0
             end).
  assert (Hm' : 0 <= m').
  { unfold m'. destruct s; try lia. apply Z.shiftl_nonneg. lia. }
  pose proof (Z.div_pos m' (Zpos my) Hm' ltac:(lia)) as Hq.
  unfold Z.div in Hq.
  destruct (Z.div_eucl m' (Z.pos my)) as [q r]. exact Hq.
Qed.

(** One divided by a number that is not zero is a number. *)
Lemma SFdiv_one_not_nan (z : spec_float) :
  is_SF_zero z = false ->
  is_SF_nan z = false ->
  is_SF_nan (SFdiv prec emax SF_one z) = false.
Proof.
  intros Hz Hn. destruct z as [s | s | | s m e];
    try discriminate Hz; try discriminate Hn; [reflexivity |].
  unfold SF_one, SFdiv.
  pose proof (SFdiv_core_binary_nonneg 4503599627370496 m (-52) e) as Hq.
  destruct (SFdiv_core_binary prec emax 4503599627370496 (-52) (Z.pos m) e)
    as [[mz ez] lz].
  apply binary_round_aux_not_nan. exact Hq.
Qed.

Lemma float_bound_not_nan (x : float) :
  PrimFloat.eqb x x = true ->
  PrimFloat.eqb x 1 = false ->
  PrimFloat.eqb (1 / (1 - x)) (1 / (1 - x)) = true.
Proof.
  intros Hx H1.
  rewrite float_eqb_self in *. apply negb_true_iff in Hx.
  apply negb_true_iff.
  rewrite FloatAxioms.div_spec, Prim2SF_one. unfold SF64div.
  apply SFdiv_one_not_nan.
  - rewrite <- float_eqb_zero, float_one_minus_is_zero. exact H1.
  - rewrite float_one_minus_nan. exact Hx.
Qed.

(** Comparisons with a NaN are false. *)
Lemma float_leb_nan (x y : float) :
  PrimFloat.eqb y y = false -> PrimFloat.leb x y = false.
Proof.
  rewrite float_eqb_self. intros Hy. apply negb_false_iff, SF_nan_inv in Hy.
  rewrite FloatAxioms.leb_spec, Hy. unfold SFleb.
  destruct (Prim2SF x); reflexivity.
Qed.

Lemma float_bound_nan (x : float) :
  PrimFloat.eqb x x = false ->
  PrimFloat.eqb (1 - x) 0 = false /\
  PrimFloat.eqb (1 / (1 - x)) (1 / (1 - x)) = false.
Proof.
  rewrite !float_eqb_self. intros Hx. apply negb_false_iff in Hx.
  assert (Hsub : Prim2SF (1 - x) = S754_nan).
  { apply SF_nan_inv. rewrite float_one_minus_nan. exact Hx. }
  split.
  - rewrite float_eqb_zero, Hsub. reflexivity.
  - rewrite FloatAxioms.div_spec, Hsub. reflexivity.
Qed.

(** Order against zero and one. *)
Lemma float_positive_nonzero (x : float) :
  PrimFloat.ltb 0 x = true -> PrimFloat.eqb x 0 = false.
Proof.
  rewrite float_eqb_zero, FloatAxioms.ltb_spec, Prim2SF_zero.
  destruct (Prim2SF x) as [s | s | | s m e]; try destruct s;
    intros E; first [reflexivity | discriminate E].
Qed.

Lemma float_below_one (x : float) :
  PrimFloat.ltb x 1 = true ->
  PrimFloat.eqb x 1 = false /\ PrimFloat.eqb x x = true.
Proof.
  rewrite float_eqb_self, FloatAxioms.ltb_spec, FloatAxioms.eqb_spec.
  rewrite Prim2SF_one. unfold SFltb, SFeqb.
  destruct (SFcompare (Prim2SF x) SF_one) as [[ | | ] |] eqn:E;
    intros Hlt; try discriminate Hlt.
  split; [reflexivity |].
  destruct (Prim2SF x); try reflexivity. discriminate E.
Qed.

(** ** The bounds of the widgets *)

Lemma float_at_least_one (x : float) :
  PrimFloat.leb amount_min_value x = true -> PrimFloat.eqb x 0 = false.
Proof.
  rewrite float_eqb_zero, FloatAxioms.leb_spec.
  change (Prim2SF amount_min_value) with SF_one.
  destruct (Prim2SF x) as [s | s | | s m e]; try destruct s;
    intros E; first [reflexivity | discriminate E].
Qed.

Lemma Prim2SF_ltv_max_value :
  Prim2SF ltv_max_value = S754_finite false 8556839292003942 (-53).
Proof. reflexivity. Qed.

Lemma float_at_most_ltv_max (x : float) :
  PrimFloat.leb x ltv_max_value = true -> PrimFloat.ltb x 1 = true.
Proof.
  rewrite FloatAxioms.leb_spec, FloatAxioms.ltb_spec.
  rewrite Prim2SF_ltv_max_value, Prim2SF_one.
  unfold SFleb, SFltb.
  destruct (Prim2SF x) as [s | s | | s m e]; try destruct s;
    try reflexivity; intros E; try discriminate E.
  rewrite SFcompare_one_finite.
  unfold SFcompare in E.
  destruct (e ?= -53) eqn:Ecmp; try discriminate E.
  - apply Z.compare_eq in Ecmp. subst e. reflexivity.
  - rewrite Z.compare_lt_iff in Ecmp.
    assert (Hlt : (e ?= -52) = Lt) by (apply Z.compare_lt_iff; lia).
    rewrite Hlt. reflexivity.
Qed.

Section TableEdges.

Context {F : Type} `{PyFloat F}.

Local Open Scope py_scope.

(** When no candidate is within the bound the loop returns the empty
    list, whatever the amount. *)
Lemma Generate_all_omitted (base : MarginPosition F) (bound : F)
  (candidates : list F) :
  max_leverage base = Ok bound ->
  (forall L, (L <=? bound) = false) ->
  Generate base candidates = Ok [].
Proof.
  intros Hb Hout. unfold Generate. generalize (@nil (SensitivityRow F)).
  induction candidates as [| lev rest IH]; intros acc; simpl.
  - reflexivity.
  - rewrite (sensitivity_step_omitted base bound lev acc Hb (Hout lev)).
    simpl. apply IH.
Qed.

End TableEdges.

(** ** Binary64: the accessors and the table *)

Lemma float_literal_one : @f_of_Z float _ 1 = 1%float.
Proof. reflexivity. Qed.

Lemma float_max_leverage (p : MarginPosition float) :
  max_leverage p =
    if PrimFloat.eqb (ltv p) 1 then Raise ZeroDivisionError
    else Ok (1 / (1 - ltv p))%float.
Proof.
  unfold max_leverage, truediv.
  change (f_is_zero (f_of_Z 1 - ltv p)%py)
    with (PrimFloat.eqb (1 - ltv p) 0).
  rewrite float_one_minus_is_zero. reflexivity.
Qed.

Close Scope Z_scope.

(** ** What [main] returns *)

Section MainReturns.

Context {F : Type} `{PyFloat F} `{PyFloatLt F}.

Local Open Scope py_scope.

Lemma metrics_Ok (p : MarginPosition F) :
  f_is_zero (amount p) = false -> metrics p = Ok (metrics_of p).
Proof.
  intros Hz. unfold metrics.
  rewrite (net_apy_Ok p Hz), monthly_earnings_Ok, daily_earnings_Ok.
  reflexivity.
Qed.

(** [main] returns as soon as its three divisors are not zero and the
    bound compares below itself. *)
Lemma main_Ok (a l lev cp bp bound : F) :
  max_lev l = Ok bound ->
  f_is_zero (f_of_Z 100) = false ->
  f_is_zero a = false ->
  (bound <=? bound) = true ->
  let position :=
    {| amount := a; ltv := l; leverage := lev;
       collateral_rate := f_quot cp (f_of_Z 100);
       borrow_rate := f_quot bp (f_of_Z 100) |} in
  exists rows,
    main a l lev cp bp =
      Ok (metrics_of position,
          rows ++ [row_of bound (test_pos position bound)]).
Proof.
  intros Hb H100 Hz Hrefl position.
  destruct (sensitivity_data_last position bound Hb Hz Hrefl) as [rows Hrows].
  exists rows. unfold main, position_of_inputs.
  rewrite Hb. simpl bind.
  rewrite !truediv_nonzero by exact H100. simpl bind.
  fold position.
  rewrite (metrics_Ok position Hz). simpl bind.
  rewrite Hrows. reflexivity.
Qed.

End MainReturns.

(** X13: in binary64 [max_leverage] raises exactly when the
    loan-to-value is the float 1.0, and otherwise returns the quotient:
    the rounded difference [1 - ltv] is never zero for another
    loan-to-value, however close to one; and for a loan-to-value that
    is a number other than 1.0 the quotient is a number too. *)
Theorem binary64_max_leverage (p : MarginPosition float) :
  max_leverage p =
    (if PrimFloat.eqb (ltv p) 1 then Raise ZeroDivisionError
     else Ok (1 / (1 - ltv p))%float) /\
  (PrimFloat.eqb (ltv p) 1 = false ->
   PrimFloat.eqb (1 - ltv p) 0 = false) /\
  (PrimFloat.eqb (ltv p) (ltv p) = true ->
   PrimFloat.eqb (ltv p) 1 = false ->
   PrimFloat.eqb (1 / (1 - ltv p)) (1 / (1 - ltv p)) = true).
Proof.
  split; [| split].
  - unfold max_leverage, truediv.
    change (f_is_zero (f_of_Z 1 - ltv p)%py)
      with (PrimFloat.eqb (1 - ltv p) 0).
    rewrite float_one_minus_is_zero. reflexivity.
  - intros Hne. rewrite float_one_minus_is_zero. exact Hne.
  - apply float_bound_not_nan.
Qed.

Lemma binary64_max_leverage_witness :
  PrimFloat.eqb (1 - ltv Binary64.example_position) 0 = false /\
  PrimFloat.eqb (1 / (1 - ltv Binary64.example_position))
    (1 / (1 - ltv Binary64.example_position)) = true.
Proof.
  split.
  - apply (proj1 (proj2 (binary64_max_leverage Binary64.example_position))).
    vm_compute. reflexivity.
  - apply (proj2 (proj2 (binary64_max_leverage Binary64.example_position)));
      vm_compute; reflexivity.
Defined.

(** X14: in binary64 no accessor raises for a position whose amount
    compares above zero and whose loan-to-value compares below one. *)
Theorem binary64_accessors_total (p : MarginPosition float) :
  PrimFloat.ltb 0 (amount p) = true ->
  PrimFloat.ltb (ltv p) 1 = true ->
  max_leverage p = Ok (1 / (1 - ltv p))%float /\
  net_apy p = Ok (annual_earnings p / collateral p * 100)%float /\
  monthly_earnings p = Ok (annual_earnings p / 12)%float /\
  daily_earnings p = Ok (annual_earnings p / 365)%float.
Proof.
  intros Ha Hl.
  destruct (float_below_one _ Hl) as [Hne _].
  split.
  { rewrite float_max_leverage, Hne. reflexivity. }
  split.
  { rewrite net_apy_Ok; [reflexivity |].
    apply float_positive_nonzero, Ha. }
  split; [rewrite monthly_earnings_Ok | rewrite daily_earnings_Ok];
    reflexivity.
Qed.

Lemma binary64_accessors_total_witness :
  max_leverage Binary64.example_position =
    Ok (1 / (1 - ltv Binary64.example_position))%float /\
  net_apy Binary64.example_position =
    Ok (annual_earnings Binary64.example_position
        / collateral Binary64.example_position * 100)%float /\
  monthly_earnings Binary64.example_position =
    Ok (annual_earnings Binary64.example_position / 12)%float /\
  daily_earnings Binary64.example_position =
    Ok (annual_earnings Binary64.example_position / 365)%float.
Proof.
  apply (binary64_accessors_total Binary64.example_position);
    vm_compute; reflexivity.
Defined.

(** X15: the table of [main] in binary64, for every position.  At a
    loan-to-value of 1.0 it raises.  At a NaN it is the empty list.
    At any other loan-to-value the bound is a number and is compared
    with itself, so its row is kept: the table raises when the amount
    is a zero and otherwise is returned with the row of the bound
    last. *)
Theorem binary64_sensitivity_data (p : MarginPosition float) :
  (PrimFloat.eqb (ltv p) 1 = true ->
   sensitivity_data p = Raise ZeroDivisionError) /\
  (PrimFloat.eqb (ltv p) (ltv p) = false ->
   sensitivity_data p = Ok []) /\
  (PrimFloat.eqb (ltv p) (ltv p) = true ->
   PrimFloat.eqb (ltv p) 1 = false ->
   (PrimFloat.eqb (amount p) 0 = true ->
    sensitivity_data p = Raise ZeroDivisionError) /\
   (PrimFloat.eqb (amount p) 0 = false ->
    exists rows,
      sensitivity_data p =
        Ok (rows ++ [row_of (1 / (1 - ltv p))%float
                       (test_pos p (1 / (1 - ltv p))%float)]))).
Proof.
  pose proof (float_max_leverage p) as Hb.
  split; [| split].
  - intros H1. rewrite H1 in Hb.
    unfold sensitivity_data, leverages. rewrite Hb. reflexivity.
  - intros Hnan.
    destruct (float_bound_nan _ Hnan) as [Hz Hbn].
    assert (Hb' : max_leverage p = Ok (1 / (1 - ltv p))%float).
    { unfold max_leverage. rewrite truediv_nonzero by exact Hz.
      reflexivity. }
    unfold sensitivity_data, leverages. rewrite Hb'. simpl bind.
    apply (Generate_all_omitted p _ _ Hb').
    intros L. apply float_leb_nan. exact Hbn.
  - intros Hnum Hne. rewrite Hne in Hb.
    pose proof (float_leb_refl _ (float_bound_not_nan _ Hnum Hne)) as Hrefl.
    split; intros Hz.
    + unfold sensitivity_data, leverages. rewrite Hb. simpl bind.
      rewrite (Generate_zero_amount p _ _ Hb Hz).
      simpl existsb.
      change (f_le (1 / (1 - ltv p))%float (1 / (1 - ltv p))%float)
        with (PrimFloat.leb (1 / (1 - ltv p)) (1 / (1 - ltv p))).
      rewrite Hrefl, !orb_true_r. reflexivity.
    + apply sensitivity_data_last; assumption.
Qed.

Lemma binary64_sensitivity_data_witness :
  exists rows,
    sensitivity_data Binary64.example_position =
      Ok (rows ++ [row_of (1 / (1 - ltv Binary64.example_position))%float
                     (test_pos Binary64.example_position
                        (1 / (1 - ltv Binary64.example_position))%float)]).
Proof.
  apply (proj2 (proj2 (proj2 (binary64_sensitivity_data
                                Binary64.example_position))
                  ltac:(vm_compute; reflexivity)
                  ltac:(vm_compute; reflexivity))).
  vm_compute. reflexivity.
Defined.

(** X16: in binary64 [main] raises nothing for the values its widgets
    admit.  With an amount that compares at least 1.0 and a
    loan-to-value that compares at most 0.95, whatever the leverage and
    the two percentages (NaN included), it returns its metrics and a
    table whose last row is the row of the bound. *)
Theorem binary64_main_returns (a l lev cp bp : float) :
  PrimFloat.leb amount_min_value a = true ->
  PrimFloat.leb l ltv_max_value = true ->
  exists shown rows last_row,
    main a l lev cp bp = Ok (shown, rows ++ [last_row]) /\
    row_leverage last_row = (1 / (1 - l))%float /\
    initial_amount shown = a.
Proof.
  intros Ha Hl.
  pose proof (float_at_least_one _ Ha) as Hz.
  destruct (float_below_one _ (float_at_most_ltv_max _ Hl)) as [Hne Hnum].
  assert (Hb : max_lev l = Ok (1 / (1 - l))%float).
  { unfold max_lev, truediv.
    change (f_is_zero (f_of_Z 1 - l)%py) with (PrimFloat.eqb (1 - l) 0).
    rewrite float_one_minus_is_zero, Hne. reflexivity. }
  destruct (main_Ok a l lev cp bp _ Hb eq_refl Hz
              (float_leb_refl _ (float_bound_not_nan _ Hnum Hne)))
    as [rows Hmain].
  eexists. exists rows. eexists.
  split; [exact Hmain |]. split; reflexivity.
Qed.

Lemma binary64_main_returns_witness :
  exists shown rows last_row,
    main 100%float 0x1.999999999999ap-1%float 5%float
         0x1.b851eb851eb85p+3%float 0x1.5f0a3d70a3d71p+3%float
      = Ok (shown, rows ++ [last_row]) /\
    row_leverage last_row = (1 / (1 - 0x1.999999999999ap-1))%float /\
    initial_amount shown = 100%float.
Proof.
  apply (binary64_main_returns 100%float 0x1.999999999999ap-1%float 5%float
           0x1.b851eb851eb85p+3%float 0x1.5f0a3d70a3d71p+3%float);
    vm_compute; reflexivity.
Defined.

(** ** Binary64: a position without leverage *)

Lemma float_positive_finite (x : float) :
  PrimFloat.ltb 0 x = true ->
  PrimFloat.ltb x infinity = true ->
  exists m e, Prim2SF x = S754_finite false m e.
Proof.
  rewrite !FloatAxioms.ltb_spec, Prim2SF_zero.
  change (Prim2SF infinity) with (S754_infinity false).
  destruct (Prim2SF x) as [s | s | | s m e]; try destruct s;
    intros E1 E2; try discriminate E1; try discriminate E2.
  exists m, e. reflexivity.
Qed.

(** X17: in binary64, a position at leverage 1.0 with a positive finite
    amount borrows exactly zero and its deposit is exactly its amount:
    no rounding enters these two values. *)
Theorem binary64_leverage_one (p : MarginPosition float) :
  leverage p = 1%float ->
  PrimFloat.ltb 0 (amount p) = true ->
  PrimFloat.ltb (amount p) infinity = true ->
  borrow p = 0%float /\ deposit p = amount p.
Proof.
  intros Hlev Hpos Hfin.
  destruct (float_positive_finite _ Hpos Hfin) as (m & e & Ha).
  assert (Hb : borrow p = 0%float).
  { apply Prim2SF_inj. unfold borrow. rewrite Hlev.
    change (Prim2SF (amount p * 0) = S754_zero false).
    rewrite FloatAxioms.mul_spec, Ha. reflexivity. }
  split; [exact Hb |].
  apply Prim2SF_inj. unfold deposit, collateral. rewrite Hb.
  change (Prim2SF (amount p + 0) = Prim2SF (amount p)).
  rewrite FloatAxioms.add_spec, Ha. reflexivity.
Qed.

Lemma binary64_leverage_one_witness :
  borrow (test_pos Binary64.example_position 1%float) = 0%float /\
  deposit (test_pos Binary64.example_position 1%float)
    = amount (test_pos Binary64.example_position 1%float).
Proof.
  apply (binary64_leverage_one (test_pos Binary64.example_position 1%float));
    vm_compute; reflexivity.
Defined.

(** * Binary64: operations that round nothing *)

Local Open Scope Z_scope.

(** A valid finite float has the exponent its number of digits asks
    for. *)
Lemma valid_finite_canonical (s : bool) (m : positive) (e : Z) :
  valid_binary (S754_finite s m e) = true ->
  fexp prec emax (Zpos (digits2_pos m) + e) = e /\ (e <=? emax - prec) = true.
Proof.
  intros Hv. change (bounded prec emax m e = true) in Hv.
  unfold bounded, canonical_mantissa in Hv.
  apply andb_true_iff in Hv. destruct Hv as [Hc Hb].
  apply Z.eqb_eq in Hc. split; assumption.
Qed.

(** Fifty-two low zero bits, shifted out again. *)
Lemma shift_52 (m : positive) :
  (4503599627370496 * m)%positive = Pos.iter xO m 52.
Proof. reflexivity. Qed.

Lemma digits2_pos_shift_52 (m : positive) :
  Zpos (digits2_pos (Pos.iter xO m 52)) = Zpos (digits2_pos m) + 52.
Proof.
  cbn [Pos.iter digits2_pos]. rewrite !Pos2Z.inj_succ. lia.
Qed.

Lemma iter_shr_1_52 (m : positive) :
  iter_pos shr_1 52 (shr_record_of_loc (Zpos (Pos.iter xO m 52)) loc_Exact) =
  {| shr_m := Zpos m; shr_r := false; shr_s := false |}.
Proof. reflexivity. Qed.

(** Multiplying by one rounds nothing away. *)
Lemma SFmul_one (x : spec_float) :
  valid_binary x = true -> SFmul prec emax x SF_one = x.
Proof.
  intros Hv. destruct x as [s | s | | s m e]; try (destruct s; reflexivity);
    try reflexivity.
  destruct (valid_finite_canonical s m e Hv) as [Hc Hb].
  unfold SF_one, SFmul. rewrite xorb_false_r.
  rewrite Pos.mul_comm, shift_52.
  unfold binary_round_aux, shr_fexp.
  unfold Zdigits2 at 1. rewrite digits2_pos_shift_52.
  replace (Z.pos (digits2_pos m) + 52 + (e + -52))
    with (Z.pos (digits2_pos m) + e) by lia.
  rewrite Hc.
  replace (e - (e + -52)) with 52 by lia.
  unfold shr at 1.
  rewrite iter_shr_1_52.
  cbn [loc_of_shr_record shr_m round_nearest_even].
  replace (e + -52 + 52) with e by lia.
  cbn [Zdigits2]. rewrite Hc, Z.sub_diag.
  cbn [shr shr_m]. rewrite Hb. reflexivity.
Qed.

Lemma float_mul_one (x : float) : (x * 1)%float = x.
Proof.
  apply Prim2SF_inj.
  rewrite FloatAxioms.mul_spec, Prim2SF_one.
  apply SFmul_one, Prim2SF_valid.
Qed.

Lemma float_sub_zero (x : float) : (x - 0)%float = x.
Proof.
  apply Prim2SF_inj.
  rewrite FloatAxioms.sub_spec, Prim2SF_zero. unfold SF64sub.
  destruct (Prim2SF x) as [s | s | | s m e]; try destruct s; reflexivity.
Qed.

(** A product with zero, for a number that is not an infinity. *)
Lemma float_mul_zero (x : float) :
  PrimFloat.leb 0 x = true ->
  PrimFloat.ltb x infinity = true ->
  is_SF_zero (Prim2SF (x * 0)) = true.
Proof.
  rewrite FloatAxioms.leb_spec, FloatAxioms.ltb_spec, FloatAxioms.mul_spec.
  rewrite Prim2SF_zero. change (Prim2SF infinity) with (S754_infinity false).
  destruct (Prim2SF x) as [s | s | | s m e]; try destruct s;
    intros E1 E2; try discriminate E1; try discriminate E2; reflexivity.
Qed.

(** Subtracting a zero of either sign leaves a number equal to itself. *)
Lemma float_sub_any_zero (x z : float) :
  is_SF_zero (Prim2SF z) = true ->
  PrimFloat.eqb x x = true ->
  PrimFloat.eqb (x - z) x = true.
Proof.
  rewrite float_eqb_self, FloatAxioms.eqb_spec, FloatAxioms.sub_spec.
  unfold SF64sub, SFeqb.
  destruct (Prim2SF z) as [sz | sz | | sz mz ez]; intros Hz; try discriminate Hz.
  destruct (Prim2SF x) as [s | s | | s m e]; intros Hx; try discriminate Hx;
    destruct s, sz; try reflexivity;
    unfold SFsub, SFcompare; rewrite Z.compare_refl, Pos.compare_cont_refl;
    reflexivity.
Qed.

(** A non-negative rate times a positive finite amount is a number. *)
Lemma float_mul_number (r a : float) :
  PrimFloat.leb 0 r = true ->
  PrimFloat.ltb 0 a = true ->
  PrimFloat.ltb a infinity = true ->
  PrimFloat.eqb (r * a) (r * a) = true.
Proof.
  intros Hr Ha Hfin.
  destruct (float_positive_finite _ Ha Hfin) as (ma & ea & Ea).
  rewrite float_eqb_self. apply negb_true_iff.
  rewrite FloatAxioms.mul_spec, Ea.
  rewrite FloatAxioms.leb_spec, Prim2SF_zero in Hr.
  destruct (Prim2SF r) as [s | s | | s m e]; try destruct s;
    try discriminate Hr; try reflexivity.
  unfold SF64mul, SFmul. apply binary_round_aux_not_nan. lia.
Qed.

Lemma float_above_positive (c x : float) :
  PrimFloat.ltb 0 c = true ->
  PrimFloat.leb c x = true ->
  PrimFloat.ltb 0 x = true.
Proof.
  rewrite !FloatAxioms.ltb_spec, FloatAxioms.leb_spec, Prim2SF_zero.
  destruct (Prim2SF c) as [sc | sc | | sc mc ec]; try destruct sc;
    intros Hc; try discriminate Hc;
    destruct (Prim2SF x) as [sx | sx | | sx mx ex]; try destruct sx;
    intros Hx; try discriminate Hx; reflexivity.
Qed.

Lemma binary_round_aux_sign (m e : Z) (l : location) :
  0 <= m ->
  SFleb (S754_zero false) (binary_round_aux prec emax false m e l) = true.
Proof.
  intros Hm. unfold binary_round_aux.
  pose proof (shr_fexp_nonneg m e l Hm) as Hm1.
  destruct (shr_fexp prec emax m e l) as [mrs' e'].
  simpl fst in Hm1.
  pose proof (round_nearest_even_lower (shr_m mrs') (loc_of_shr_record mrs'))
    as Hr.
  pose proof (shr_fexp_nonneg
                (round_nearest_even (shr_m mrs') (loc_of_shr_record mrs'))
                e' loc_Exact ltac:(lia)) as Hm2.
  destruct (shr_fexp prec emax
              (round_nearest_even (shr_m mrs') (loc_of_shr_record mrs'))
              e' loc_Exact) as [mrs'' e''].
  simpl fst in Hm2.
  destruct (shr_m mrs'') as [| m'' | m'']; try lia; [reflexivity |].
  destruct (e'' <=? emax - prec); reflexivity.
Qed.

(** A percentage that is not negative gives a rate that is not
    negative. *)
Lemma float_percent_nonneg (x : float) :
  PrimFloat.leb 0 x = true -> PrimFloat.leb 0 (x / 100) = true.
Proof.
  rewrite !FloatAxioms.leb_spec, FloatAxioms.div_spec, Prim2SF_zero.
  change (Prim2SF 100) with (S754_finite false 7036874417766400 (-46)).
  destruct (Prim2SF x) as [s | s | | s m e]; try destruct s;
    intros Hx; try discriminate Hx; try reflexivity.
  unfold SF64div, SFdiv.
  pose proof (SFdiv_core_binary_nonneg m 7036874417766400 e (-46)) as Hq.
  destruct (SFdiv_core_binary prec emax (Z.pos m) e 7036874417766400 (-46))
    as [[mz ez] lz].
  apply binary_round_aux_sign. exact Hq.
Qed.

Close Scope Z_scope.

#[local] Set Warnings "-inexact-float".

(** * The claims on the arithmetic, in binary64 *)

(** C9: for a position whose amount compares above zero and whose
    loan-to-value compares below one (a fortiori strictly between 0 and
    1), no accessor raises.  The four divisors, [1 - ltv], the
    collateral, 12 and 365, are not zero in binary64, so [max_leverage],
    [net_apy], [monthly_earnings] and [daily_earnings] return the
    quotients; [collateral], [borrow], [deposit] and [annual_earnings]
    divide nothing.  That [1 - ltv] does not round to zero is
    [float_one_minus_is_zero]. *)
Theorem accessors_total (p : MarginPosition float) :
  PrimFloat.ltb 0 (amount p) = true ->
  PrimFloat.ltb (ltv p) 1 = true ->
  (PrimFloat.eqb (1 - ltv p) 0 = false /\
   PrimFloat.eqb (collateral p) 0 = false /\
   PrimFloat.eqb 12 0 = false /\
   PrimFloat.eqb 365 0 = false) /\
  max_leverage p = Ok (1 / (1 - ltv p))%float /\
  net_apy p = Ok (annual_earnings p / collateral p * 100)%float /\
  monthly_earnings p = Ok (annual_earnings p / 12)%float /\
  daily_earnings p = Ok (annual_earnings p / 365)%float.
Proof.
  intros Ha Hl.
  destruct (float_below_one _ Hl) as [Hne _].
  pose proof (float_positive_nonzero _ Ha) as Hz.
  split.
  { split; [rewrite float_one_minus_is_zero; exact Hne |].
    split; [exact Hz |]. split; reflexivity. }
  split.
  { rewrite float_max_leverage, Hne. reflexivity. }
  split.
  { rewrite net_apy_Ok; [reflexivity | exact Hz]. }
  split; [rewrite monthly_earnings_Ok | rewrite daily_earnings_Ok];
    reflexivity.
Qed.

Lemma accessors_total_witness :
  (PrimFloat.eqb (1 - ltv Binary64.example_position) 0 = false /\
   PrimFloat.eqb (collateral Binary64.example_position) 0 = false /\
   PrimFloat.eqb 12 0 = false /\
   PrimFloat.eqb 365 0 = false) /\
  max_leverage Binary64.example_position =
    Ok (1 / (1 - ltv Binary64.example_position))%float /\
  net_apy Binary64.example_position =
    Ok (annual_earnings Binary64.example_position
        / collateral Binary64.example_position * 100)%float /\
  monthly_earnings Binary64.example_position =
    Ok (annual_earnings Binary64.example_position / 12)%float /\
  daily_earnings Binary64.example_position =
    Ok (annual_earnings Binary64.example_position / 365)%float.
Proof.
  apply (accessors_total Binary64.example_position);
    vm_compute; reflexivity.
Defined.

(** C6 (as stated, refuted): the claim has the annual earnings and the
    net yield of the worked example equal to 24.92.  In binary64 both
    are 24.919999999999995, which Python's [==] tells apart from the
    float 24.92. *)
Lemma worked_example_not_exact :
  PrimFloat.eqb (annual_earnings Binary64.example_position) 24.92 = false /\
  net_apy Binary64.example_position = Ok 24.919999999999995%float /\
  PrimFloat.eqb 24.919999999999995 24.92 = false.
Proof. repeat split; vm_compute; reflexivity. Qed.

(** C6 (amended): for amount 100, loan-to-value 0.8, leverage 5 and
    rates 0.1376 and 0.1097 the code returns a borrow of exactly 400, a
    deposit of exactly 500, annual earnings and a net yield of
    24.919999999999995, monthly earnings of 2.0766666666666662 and
    daily earnings of 0.068273972602739708.  The earnings and the yield
    are within 1e-12 of 24.92 without being the float 24.92, and the
    monthly and daily earnings are 2.0767 and 0.06827 to the digits
    shown. *)
Theorem worked_example :
  (borrow Binary64.example_position = 400%float /\
   deposit Binary64.example_position = 500%float /\
   annual_earnings Binary64.example_position = 24.919999999999995%float /\
   net_apy Binary64.example_position = Ok 24.919999999999995%float /\
   monthly_earnings Binary64.example_position = Ok 2.0766666666666662%float /\
   daily_earnings Binary64.example_position = Ok 0.068273972602739708%float) /\
  (Binary64.near 24.919999999999995%float (2492 # 100) (1 # 1000000000000)
     = true /\
   Binary64.near 2.0766666666666662%float (20767 # 10000) (5 # 100000)
     = true /\
   Binary64.near 0.068273972602739708%float (6827 # 100000) (5 # 1000000)
     = true).
Proof.
  split.
  - repeat split; vm_compute; reflexivity.
  - repeat split; vm_compute; reflexivity.
Qed.

(** C7 (as stated, refuted): at leverage 1 the claim has the net yield
    equal to the collateral rate times 100.  For an amount of 0.1 and a
    collateral rate of 0.0007000000000000001 the code returns
    0.06999999999999999, and the rate times 100 is
    0.07000000000000001. *)
Lemma leverage_one_net_apy_rounds :
  let p := {| amount := 0.1%float; ltv := 0.8%float; leverage := 1%float;
              collateral_rate := 0.0007000000000000001%float;
              borrow_rate := 0.1097%float |} in
  net_apy p = Ok 0.069999999999999993%float /\
  (collateral_rate p * 100)%float = 0.070000000000000007%float /\
  PrimFloat.eqb 0.069999999999999993 0.070000000000000007 = false.
Proof. repeat split; vm_compute; reflexivity. Qed.

(** C7 (amended): in binary64, at leverage 1.0, for a positive finite
    amount, a collateral rate that is not negative and a finite borrow
    rate that is not negative: the borrow is exactly zero, the deposit
    is exactly the amount, the annual earnings equal (Python's [==])
    the collateral rate times the amount, and the net yield is these
    earnings divided by the amount and multiplied by 100, two rounded
    operations that need not give back the rate times 100. *)
Theorem leverage_one (p : MarginPosition float) :
  leverage p = 1%float ->
  PrimFloat.ltb 0 (amount p) = true ->
  PrimFloat.ltb (amount p) infinity = true ->
  PrimFloat.leb 0 (collateral_rate p) = true ->
  PrimFloat.leb 0 (borrow_rate p) = true ->
  PrimFloat.ltb (borrow_rate p) infinity = true ->
  borrow p = 0%float /\
  deposit p = amount p /\
  PrimFloat.eqb (annual_earnings p) (collateral_rate p * amount p) = true /\
  net_apy p = Ok (annual_earnings p / amount p * 100)%float.
Proof.
  intros Hlev Hpos Hfin Hcr Hbr Hbrfin.
  destruct (float_positive_finite _ Hpos Hfin) as (m & e & Ha).
  assert (Hb : borrow p = 0%float).
  { apply Prim2SF_inj. unfold borrow. rewrite Hlev.
    change (Prim2SF (amount p * 0) = S754_zero false).
    rewrite FloatAxioms.mul_spec, Ha. reflexivity. }
  split; [exact Hb |].
  split.
  { apply Prim2SF_inj. unfold deposit, collateral. rewrite Hb.
    change (Prim2SF (amount p + 0) = Prim2SF (amount p)).
    rewrite FloatAxioms.add_spec, Ha. reflexivity. }
  split.
  { unfold annual_earnings, collateral. rewrite Hb, Hlev.
    change (PrimFloat.eqb
              (collateral_rate p * amount p * 1 - borrow_rate p * 0)
              (collateral_rate p * amount p) = true).
    rewrite float_mul_one.
    apply float_sub_any_zero.
    - apply float_mul_zero; assumption.
    - apply float_mul_number; assumption. }
  rewrite net_apy_Ok by (apply float_positive_nonzero; exact Hpos).
  reflexivity.
Qed.

Lemma leverage_one_witness :
  let p := test_pos Binary64.example_position 1%float in
  borrow p = 0%float /\
  deposit p = amount p /\
  PrimFloat.eqb (annual_earnings p) (collateral_rate p * amount p) = true /\
  net_apy p = Ok (annual_earnings p / amount p * 100)%float.
Proof.
  intros p. apply (leverage_one p); vm_compute; reflexivity.
Defined.







(** * Further properties in binary64 *)

Section Column.

Context {F : Type} `{PyFloat F}.

Local Open Scope py_scope.

(** The leverages of the rows the loop returns. *)
Lemma Generate_Ok_column (base : MarginPosition F) (bound : F)
  (candidates : list F) (rows : list (SensitivityRow F)) :
  max_leverage base = Ok bound ->
  Generate base candidates = Ok rows ->
  map row_leverage rows = filter (fun L => L <=? bound) candidates.
Proof.
  intros Hb Hgen. destruct (f_is_zero (amount base)) eqn:Hz.
  - rewrite (Generate_zero_amount base bound candidates Hb Hz) in Hgen.
    destruct (existsb (fun L => L <=? bound) candidates) eqn:Ex;
      [discriminate Hgen |].
    injection Hgen as <-. rewrite existsb_false_filter by exact Ex.
    reflexivity.
  - rewrite (Generate_filter_map base bound candidates Hb Hz) in Hgen.
    injection Hgen as <-. apply row_leverage_row_of.
Qed.

End Column.

(** X9: whenever the table of [main] is returned in binary64, its rows
    are in non-decreasing order of leverage (under the comparison of
    floats), there are at most 6 of them, and every leverage in it is
    at most the bound. *)
Theorem binary64_table_sorted (p : MarginPosition float)
  (rows : list (SensitivityRow float)) :
  sensitivity_data p = Ok rows ->
  Sorted (fun x y => PrimFloat.leb x y = true) (map row_leverage rows) /\
  (length rows <= 6)%nat /\
  (forall bound, max_leverage p = Ok bound ->
     Forall (fun L => PrimFloat.leb L bound = true) (map row_leverage rows)).
Proof.
  intros Hdata. unfold sensitivity_data, leverages in Hdata.
  destruct (max_leverage p) as [bound | e] eqn:Hb; [| discriminate Hdata].
  simpl bind in Hdata.
  pose proof (Generate_Ok_column p bound _ rows Hb Hdata) as Hcol.
  rewrite <- (length_map row_leverage), Hcol. clear Hdata Hcol.
  change (@f_of_Z float _ 1) with 1%float.
  change (@f_of_Z float _ 2) with 2%float.
  change (@f_of_Z float _ 3) with 3%float.
  change (@f_of_Z float _ 4) with 4%float.
  change (@f_of_Z float _ 5) with 5%float.
  split; [| split].
  - cbn [filter].
    change (@f_le float _) with PrimFloat.leb.
    destruct (PrimFloat.leb 1 bound) eqn:K1, (PrimFloat.leb 2 bound) eqn:K2,
             (PrimFloat.leb 3 bound) eqn:K3, (PrimFloat.leb 4 bound) eqn:K4,
             (PrimFloat.leb 5 bound) eqn:K5,
             (PrimFloat.leb bound bound) eqn:K6;
      repeat first [ apply Sorted_nil
                   | apply Sorted_cons
                   | apply HdRel_nil
                   | apply HdRel_cons ];
      first [ assumption | reflexivity ].
  - apply filter_length_le.
  - intros b Hb'. injection Hb' as <-.
    apply Forall_forall. intros L HL.
    apply filter_In in HL. exact (proj2 HL).
Qed.

Lemma binary64_table_sorted_witness :
  exists rows,
    sensitivity_data Binary64.example_position = Ok rows /\
    Sorted (fun x y => PrimFloat.leb x y = true) (map row_leverage rows) /\
    (length rows <= 6)%nat.
Proof.
  eexists. split; [vm_compute; reflexivity |].
  split.
  - apply (binary64_table_sorted Binary64.example_position).
    vm_compute. reflexivity.
  - apply (binary64_table_sorted Binary64.example_position).
    vm_compute. reflexivity.
Defined.

(** X10: the positions [main] builds are valid, in binary64.  The
    widgets hand over an amount of at least 1.0, a loan-to-value between
    0.1 and 0.95, a leverage between 1.0 and the computed [max_lev] and
    two percentages of at least 0.0; from such values [main] constructs,
    without raising, the position with that amount, loan-to-value and
    leverage and with the percentages divided by 100, and this position
    satisfies the invariants of section 3 as comparisons of floats:
    amount above 0, loan-to-value strictly between 0 and 1, leverage
    between 1 and the position's own [max_leverage], rates not
    negative. *)
Theorem binary64_widget_values_give_valid_position
  (a l lev cp bp bound : float) :
  PrimFloat.leb amount_min_value a = true ->
  PrimFloat.leb ltv_min_value l = true ->
  PrimFloat.leb l ltv_max_value = true ->
  max_lev l = Ok bound ->
  PrimFloat.leb 1 lev = true ->
  PrimFloat.leb lev bound = true ->
  PrimFloat.leb 0 cp = true ->
  PrimFloat.leb 0 bp = true ->
  exists p : MarginPosition float,
    position_of_inputs a l lev cp bp = Ok p /\
    (amount p = a /\ ltv p = l /\ leverage p = lev /\
     collateral_rate p = (cp / 100)%float /\
     borrow_rate p = (bp / 100)%float) /\
    PrimFloat.ltb 0 (amount p) = true /\
    (PrimFloat.ltb 0 (ltv p) = true /\ PrimFloat.ltb (ltv p) 1 = true) /\
    (PrimFloat.leb 1 (leverage p) = true /\
     max_leverage p = Ok bound /\
     PrimFloat.leb (leverage p) bound = true) /\
    PrimFloat.leb 0 (collateral_rate p) = true /\
    PrimFloat.leb 0 (borrow_rate p) = true.
Proof.
  intros Ha Hl0 Hl1 Hb Hlev1 Hlev2 Hcp Hbp.
  exists {| amount := a; ltv := l; leverage := lev;
            collateral_rate := (cp / 100)%float;
            borrow_rate := (bp / 100)%float |}.
  split; [reflexivity |].
  split; [repeat split |].
  split.
  { apply (float_above_positive amount_min_value); [reflexivity | exact Ha]. }
  split.
  { split.
    - apply (float_above_positive ltv_min_value); [reflexivity | exact Hl0].
    - apply float_at_most_ltv_max. exact Hl1. }
  split.
  { split; [exact Hlev1 |]. split; [exact Hb | exact Hlev2]. }
  split; apply float_percent_nonneg; assumption.
Qed.

Lemma binary64_widget_values_give_valid_position_witness :
  exists p : MarginPosition float,
    position_of_inputs 100%float 0.8%float 5%float 13.76%float 10.97%float
      = Ok p /\
    PrimFloat.ltb 0 (amount p) = true /\
    (PrimFloat.ltb 0 (ltv p) = true /\ PrimFloat.ltb (ltv p) 1 = true) /\
    (PrimFloat.leb 1 (leverage p) = true /\
     max_leverage p = Ok 5.0000000000000009%float /\
     PrimFloat.leb (leverage p) 5.0000000000000009%float = true) /\
    PrimFloat.leb 0 (collateral_rate p) = true /\
    PrimFloat.leb 0 (borrow_rate p) = true.
Proof.
  destruct (binary64_widget_values_give_valid_position
              100%float 0.8%float 5%float 13.76%float 10.97%float
              5.0000000000000009%float)
    as (p & Hp & _ & Hrest); try (vm_compute; reflexivity).
  exists p. split; [exact Hp | exact Hrest].
Defined.

#[local] Set Warnings "+inexact-float".
